(** * Course query handlers (backend/app/api/course.py)

    A shallow embedding of the three route handlers [search_courses],
    [get_course_by_id] and [get_courses_by_major], together with the
    fragment of Python's dynamic semantics they rely on (subscription,
    truthiness, iteration, [len], [str.join], [str.upper], exceptions).

    Python dictionaries are finite maps from strings to values; the
    handlers only look keys up, insert keys and hand the dictionary
    back, so insertion order plays no role.  Exceptions are values of
    an error monad.  The two collaborator services and the ORM objects
    they return are not part of the file under study: they appear as
    records of functions and of attributes.  Building the two service
    objects and writing to the log are taken to succeed, and a call to
    a collaborator to depend on its arguments only.  The built-ins
    [str], [str.upper] and [datetime.isoformat] are parameters of the
    handlers that call them. *)

From Stdlib Require Import ZArith Floats.
From stdpp Require Import gmap strings list fin_maps pretty.

#[local] Set Warnings "-register-all".
#[local] Open Scope Z_scope.

(** ** Python values *)

(** JSON-shaped Python objects: what the collaborators return and what
    the handlers send back. *)
Inductive value : Type :=
| VNone
| VBool (b : bool)
| VInt (z : Z)
| VFloat (f : float)
| VStr (s : string)
| VList (l : list value)
| VDict (d : gmap string value).

(** [type(v).__name__], as it shows up in the interpreter's messages. *)
Definition type_name (v : value) : string :=
  match v with
  | VNone => "NoneType"
  | VBool _ => "bool"
  | VInt _ => "int"
  | VFloat _ => "float"
  | VStr _ => "str"
  | VList _ => "list"
  | VDict _ => "dict"
  end.

(** ** Exceptions *)

(** An exception is recorded by the class the [except] clauses
    discriminate on and by the text [str(e)] yields.  [ValueError]
    stands for the class and its subclasses, [Exception] for every
    class that is neither of the three others. *)
Inductive exn : Type :=
| ValueError (msg : string)
| KeyError (msg : string)
| TypeError (msg : string)
| Exception (msg : string).

(** [str(e)] *)
Definition str_exn (e : exn) : string :=
  match e with
  | ValueError m | KeyError m | TypeError m | Exception m => m
  end.

(** [isinstance(e, ValueError)] *)
Definition is_ValueError (e : exn) : bool :=
  match e with ValueError _ => true | _ => false end.

(** Outcome of evaluating an expression or a block: a value, or a
    raised exception. *)
Inductive result (A : Type) : Type :=
| Ok (a : A)
| Raise (e : exn).
Arguments Ok {A} a.
Arguments Raise {A} e.

#[global] Instance result_ret : MRet result := λ A a, Ok a.
#[global] Instance result_bind : MBind result := λ A B f m,
  match m with
  | Ok a => f a
  | Raise e => Raise e
  end.
#[global] Instance result_fmap : FMap result := λ A B f m,
  match m with
  | Ok a => Ok (f a)
  | Raise e => Raise e
  end.

(** ** Built-in operations *)

(** [repr(k)] for a key written as a literal in the source: none of
    them holds a quote, a backslash or a control character, so the
    representation is the key between single quotes. *)
Definition repr_key (k : string) : string := "'" +:+ k +:+ "'".

(** [v[k]] for a string key [k] (messages of CPython 3.11 and later). *)
Definition py_getitem (v : value) (k : string) : result value :=
  match v with
  | VDict d =>
      match d !! k with
      | Some x => Ok x
      | None => Raise (KeyError (repr_key k))
      end
  | VList _ => Raise (TypeError "list indices must be integers or slices, not str")
  | VStr _ => Raise (TypeError "string indices must be integers, not 'str'")
  | _ => Raise (TypeError ("'" +:+ type_name v +:+ "' object is not subscriptable"))
  end.

(** [v[k] = x] for a string key [k]; the updated object is returned. *)
Definition py_setitem (v : value) (k : string) (x : value) : result value :=
  match v with
  | VDict d => Ok (VDict (<[k := x]> d))
  | VList _ => Raise (TypeError "list indices must be integers or slices, not str")
  | _ => Raise (TypeError ("'" +:+ type_name v +:+ "' object does not support item assignment"))
  end.

(** [bool(v)] *)
Definition py_bool (v : value) : bool :=
  match v with
  | VNone => false
  | VBool b => b
  | VInt z => negb (z =? 0)
  | VFloat f => negb (PrimFloat.eqb f 0%float)
  | VStr s => negb (String.eqb s "")
  | VList l => match l with [] => false | _ => true end
  | VDict d => negb (bool_decide (d = ∅))
  end.

(** [a or b] *)
Definition py_or (a b : value) : value := if py_bool a then a else b.

(** The elements [for x in v] runs through.  A string yields its
    characters, a dictionary its keys. *)
Definition py_iter (v : value) : result (list value) :=
  match v with
  | VList l => Ok l
  | VStr s => Ok ((λ c, VStr (String c EmptyString)) <$> String.list_ascii_of_string s)
  | VDict d => Ok (VStr <$> (map_to_list d).*1)
  | _ => Raise (TypeError ("'" +:+ type_name v +:+ "' object is not iterable"))
  end.

(** [len(v)] *)
Definition py_len (v : value) : result Z :=
  match v with
  | VList l => Ok (Z.of_nat (length l))
  | VStr s => Ok (Z.of_nat (String.length s))
  | VDict d => Ok (Z.of_nat (size d))
  | _ => Raise (TypeError ("object of type '" +:+ type_name v +:+ "' has no len()"))
  end.

(** [sep.join(items)], the items numbered from [i]. *)
Fixpoint py_join_from (i : nat) (sep : string) (items : list value) : result string :=
  match items with
  | [] => Ok ""
  | x :: rest =>
      match x with
      | VStr s =>
          tail ← py_join_from (S i) sep rest;
          mret (match rest with [] => s | _ => s +:+ sep +:+ tail end)
      | _ => Raise (TypeError ("sequence item " +:+ pretty i +:+
                               ": expected str instance, " +:+ type_name x +:+ " found"))
      end
  end.

Definition py_join (sep : string) (items : list value) : result string :=
  py_join_from 0 sep items.

(** [{**v}]: the items of a mapping. *)
Definition py_unpack (v : value) : result (gmap string value) :=
  match v with
  | VDict d => Ok d
  | _ => Raise (TypeError ("'" +:+ type_name v +:+ "' object is not a mapping"))
  end.

(** [c.upper()] on one ASCII character: the letters [a]..[z] move to
    [A]..[Z], every other character stays. *)
Definition upper_ascii (c : Ascii.ascii) : Ascii.ascii :=
  let n := Ascii.nat_of_ascii c in
  if (97 <=? n)%nat && (n <=? 122)%nat then Ascii.ascii_of_nat (n - 32) else c.

(** What [s.upper()] is when [s] holds ASCII characters only.  On other
    text [str.upper] follows the Unicode case mapping (the long s and
    the dotless i become [S] and [I]), which is not spelled out here:
    the handler that calls [str.upper] takes it as a parameter. *)
Fixpoint ascii_upper (s : string) : string :=
  match s with
  | EmptyString => EmptyString
  | String c rest => String (upper_ascii c) (ascii_upper rest)
  end.

(** [s.isascii()] *)
Definition is_ascii (s : string) : bool :=
  forallb (λ c, (Ascii.nat_of_ascii c <? 128)%nat) (String.list_ascii_of_string s).

(** ** Collaborators *)

(** A row of the course table as the ORM hands it over: attributes are
    read, never written.  [created_at] is a [datetime] or [None]. *)
Module Course.
Record t {datetime : Type} : Type := mk {
  id : value;
  course_id : value;
  course_name : value;
  course_description : value;
  major : value;
  domains : value;
  skills_associated : value;
  prerequisites : value;
  created_at : option datetime
}.
Arguments t : clear implicits.
End Course.

(** The authenticated caller. *)
Module User.
Record t : Type := mk {
  id : value;
  completed_courses : value
}.
End User.

(** [CourseSearchService(db)]: the three methods the handlers call.
    Each either returns or raises; being service-layer code, what it
    raises is never an [HTTPException]. *)
Module CourseSearchService.
Record t {datetime : Type} : Type := mk {
  (* search_courses(query, limit, offset, major_filter) *)
  search_courses : string → Z → Z → option string → result value;
  get_course_by_id : string → result (option (Course.t datetime));
  (* get_courses_by_major(major, limit) *)
  get_courses_by_major : string → Z → result (list (Course.t datetime))
}.
Arguments t : clear implicits.
End CourseSearchService.

(** [Neo4jService()] *)
Module Neo4jService.
Record t : Type := mk {
  is_configured : bool;
  (* check_prerequisites_completion(course_id, completed_courses) *)
  check_prerequisites_completion : string → value → result value
}.
End Neo4jService.

(** ** Handlers *)

(** What a route handler hands to the framework: the returned body, or
    the [HTTPException] it raised. *)
Inductive response : Type :=
| Return (body : value)
| HTTPException (status_code : Z) (detail : string).

Section handlers.
Context {datetime : Type}.
(** [datetime.isoformat] *)
Variable isoformat : datetime → string.
(** The built-in [str] on values; it raises on none of them. *)
Variable str : value → string.
(** The built-in [str.upper], on text of any alphabet. *)
Variable upper : string → string.

Abbreviation CourseSearchService := (CourseSearchService.t datetime).
Abbreviation Course := (Course.t datetime).

(** *** GET /search *)

(** The body of [for course in search_results["courses"]], run over
    the courses still to visit; [eligible_courses] and
    [ineligible_courses] are the two lists built so far. *)
Fixpoint search_courses_loop (neo4j_service : Neo4jService.t) (completed_courses : value)
    (courses : list value) (eligible_courses ineligible_courses : list value)
    : result (list value * list value) :=
  match courses with
  | [] => mret (eligible_courses, ineligible_courses)
  | course :: rest =>
      id ← py_getitem course "id";
      let course_id := str id in
      prereq_status ← Neo4jService.check_prerequisites_completion neo4j_service
                        course_id completed_courses;
      met ← py_getitem prereq_status "prerequisites_met";
      if py_bool met then
        d ← py_unpack course;
        let entry :=
          <["eligible" := VBool true]> (<["prerequisite_status" := prereq_status]> d) in
        search_courses_loop neo4j_service completed_courses rest
          (eligible_courses ++ [VDict entry]) ineligible_courses
      else
        d ← py_unpack course;
        missing ← py_getitem prereq_status "missing_prerequisites";
        missing' ← py_getitem prereq_status "missing_prerequisites";
        ps ← py_iter missing';
        names ← mapM (λ p, py_getitem p "name") ps;
        joined ← py_join ", " names;
        let entry :=
          <["prerequisite_message" := VStr ("Complete one of: " +:+ joined)]>
            (<["missing_prerequisites" := missing]>
              (<["eligible" := VBool false]>
                (<["prerequisite_status" := prereq_status]> d))) in
        search_courses_loop neo4j_service completed_courses rest
          eligible_courses (ineligible_courses ++ [VDict entry])
  end.

(** The [try] block of [search_courses]. *)
Definition search_courses_body (search_service : CourseSearchService)
    (neo4j_service : Neo4jService.t)
    (q : string) (limit offset : Z) (major : option string)
    (check_prerequisites : bool) (current_user : User.t) : result value :=
  let completed_courses := py_or (User.completed_courses current_user) (VList []) in
  search_results ← CourseSearchService.search_courses search_service q limit offset major;
  search_results ←
    (if check_prerequisites && Neo4jService.is_configured neo4j_service then
       courses ← py_getitem search_results "courses";
       courses ← py_iter courses;
       '(eligible_courses, ineligible_courses) ←
         search_courses_loop neo4j_service completed_courses courses [] [];
       search_results ← py_setitem search_results "eligible_courses" (VList eligible_courses);
       search_results ← py_setitem search_results "ineligible_courses" (VList ineligible_courses);
       search_results ← py_setitem search_results "prerequisites_checked" (VBool true);
       search_results ← py_setitem search_results "user_completed_courses" completed_courses;
       search_results ← py_setitem search_results "eligible_count"
                          (VInt (Z.of_nat (length eligible_courses)));
       py_setitem search_results "ineligible_count"
         (VInt (Z.of_nat (length ineligible_courses)))
     else
       courses ← py_getitem search_results "courses";
       search_results ← py_setitem search_results "eligible_courses" courses;
       search_results ← py_setitem search_results "ineligible_courses" (VList []);
       search_results ← py_setitem search_results "prerequisites_checked" (VBool false);
       courses ← py_getitem search_results "courses";
       n ← py_len courses;
       search_results ← py_setitem search_results "eligible_count" (VInt n);
       py_setitem search_results "ineligible_count" (VInt 0));
  (* the two log lines read these keys *)
  _ ← py_getitem search_results "total_count";
  _ ← (if check_prerequisites then
         _ ← py_getitem search_results "eligible_count";
         py_getitem search_results "ineligible_count"
       else mret VNone);
  mret search_results.

(** [search_courses]: the [try] block under its two [except] clauses. *)
Definition search_courses (search_service : CourseSearchService)
    (neo4j_service : Neo4jService.t)
    (q : string) (limit offset : Z) (major : option string)
    (check_prerequisites : bool) (current_user : User.t) : response :=
  match search_courses_body search_service neo4j_service q limit offset major
          check_prerequisites current_user with
  | Ok search_results => Return search_results
  | Raise (ValueError _ as ve) =>
      HTTPException 400 ("Invalid search parameters: " +:+ str_exn ve)
  | Raise e =>
      HTTPException 500 ("Search failed: " +:+ str_exn e)
  end.

(** *** GET /search/{course_id} and GET /major/{major} *)

(** The dictionary both handlers build from a course row. *)
Definition format_course (course : Course) : value :=
  VDict {[
    "id" := VStr (str (Course.id course));
    "course_id" := Course.course_id course;
    "course_name" := Course.course_name course;
    "course_description" := Course.course_description course;
    "major" := Course.major course;
    "domains" := py_or (Course.domains course) (VList []);
    "skills_associated" := py_or (Course.skills_associated course) (VList []);
    "prerequisites" := py_or (Course.prerequisites course) (VList []);
    "created_at" := match Course.created_at course with
                    | Some t => VStr (isoformat t)
                    | None => VNone
                    end
  ]}.

(** [get_course_by_id]: inside the [try] block the handler returns or
    raises its own [HTTPException], which the first [except] clause
    lets through; anything else becomes a 500. *)
Definition get_course_by_id (search_service : CourseSearchService)
    (course_id : string) : response :=
  match
    course ← CourseSearchService.get_course_by_id search_service course_id;
    match course with
    | None =>
        mret (HTTPException 404 ("Course with ID '" +:+ course_id +:+ "' not found"))
    | Some course => mret (Return (format_course course))
    end
  with
  | Ok r => r
  | Raise e => HTTPException 500 ("Failed to retrieve course: " +:+ str_exn e)
  end.

Definition valid_majors : list string := ["CSYE"; "INFO"; "DAMG"].

(** [', '.join(valid_majors)] *)
Definition valid_majors_joined : result string :=
  py_join ", " (VStr <$> valid_majors).

(** The formatting loop of [get_courses_by_major]. *)
Fixpoint format_courses_loop (courses : list Course) (formatted_courses : list value)
    : list value :=
  match courses with
  | [] => formatted_courses
  | course :: rest =>
      format_courses_loop rest (formatted_courses ++ [format_course course])
  end.

Definition get_courses_by_major (search_service : CourseSearchService)
    (major : string) (limit : Z) : response :=
  match
    if bool_decide (upper major ∉ valid_majors) then
      allowed ← valid_majors_joined;
      mret (HTTPException 400 ("Invalid major. Must be one of: " +:+ allowed))
    else
      courses ← CourseSearchService.get_courses_by_major search_service (upper major) limit;
      let formatted_courses := format_courses_loop courses [] in
      mret (Return (VDict {[
        "major" := VStr (upper major);
        "courses" := VList formatted_courses;
        "total_count" := VInt (Z.of_nat (length formatted_courses));
        "limit" := VInt limit
      ]}))
  with
  | Ok r => r
  | Raise e => HTTPException 500 ("Failed to retrieve courses: " +:+ str_exn e)
  end.

End handlers.

(** ** A small catalogue

    CSYE6200 has no prerequisite, CSYE6225 requires CSYE6200.  These
    collaborators let the handlers be run on concrete requests. *)
Module Demo.

(** [str] on the scalars that serve as identifiers; the catalogue uses
    no other value as one, and the last case is not meant for them. *)
Definition str (v : value) : string :=
  match v with
  | VStr s => s
  | VInt z => pretty z
  | VBool true => "True"
  | VBool false => "False"
  | _ => "None"
  end.

(** A creation time is kept as its ISO text. *)
Definition isoformat (t : string) : string := t.

Definition csye6200 : gmap string value :=
  {[ "id" := VStr "CSYE6200"; "course_name" := VStr "Concepts of Object Oriented Design";
     "major" := VStr "CSYE"; "relevance_score" := VInt 12 ]}.

Definition csye6225 : gmap string value :=
  {[ "id" := VStr "CSYE6225"; "course_name" := VStr "Network Structures and Cloud Computing";
     "major" := VStr "CSYE"; "relevance_score" := VInt 7 ]}.

Definition search_results : gmap string value :=
  {[ "courses" := VList [VDict csye6200; VDict csye6225];
     "total_count" := VInt 2; "has_more" := VBool false ]}.

Definition row (code name : string) (stamp : option string) : Course.t string :=
  Course.mk string (VInt 1) (VStr code) (VStr name) VNone (VStr "CSYE")
    VNone (VList [VStr "cloud"]) VNone stamp.

Definition search_service : CourseSearchService.t string :=
  CourseSearchService.mk string
    (λ q _ _ _, if String.eqb q "%" then Raise (ValueError "bad pattern")
                else if String.eqb q "!" then Raise (Exception "connection lost")
                else Ok (VDict search_results))
    (λ course_id, if String.eqb course_id "CSYE6225"
                  then Ok (Some (row "CSYE6225" "Cloud" (Some "2024-01-05T10:00:00")))
                  else Ok None)
    (λ major _, if String.eqb major "CSYE"
                then Ok [row "CSYE6200" "OOD" None; row "CSYE6225" "Cloud" None]
                else Ok []).

(** [code in completed] for a list of course codes. *)
Definition completed (code : string) (completed_courses : value) : bool :=
  match completed_courses with
  | VList l => existsb (λ v, match v with VStr s => String.eqb s code | _ => false end) l
  | _ => false
  end.

Definition status (met : bool) (missing : list string) : value :=
  VDict {[ "prerequisites_met" := VBool met;
           "missing_prerequisites" := VList ((λ n, VDict {[ "name" := VStr n ]}) <$> missing) ]}.

Definition neo4j_service (configured : bool) : Neo4jService.t :=
  Neo4jService.mk configured
    (λ course_id completed_courses,
       if String.eqb course_id "CSYE6225" && negb (completed "CSYE6200" completed_courses)
       then Ok (status false ["CSYE6200"])
       else Ok (status true [])).

Definition student (completed_courses : value) : User.t := User.mk (VInt 42) completed_courses.

(** The body of an outcome, [None] for an error. *)
Definition body_of (r : response) : value :=
  match r with Return body => body | HTTPException _ _ => VNone end.

(** What the entries under a key of a response hold at [field]. *)
Definition fields_under (key field : string) (body : value) : result (list value) :=
  entries ← py_getitem body key;
  entries ← py_iter entries;
  mapM (λ entry, py_getitem entry field) entries.

(** GET /search?q=cloud by a student with no completed course, the
    graph collaborator being configured. *)
Definition checked_body : value :=
  Eval vm_compute in
    body_of (search_courses str search_service (neo4j_service true)
               "cloud" 5 0 None true (student VNone)).

(** The same request with [check_prerequisites=false]. *)
Definition unchecked_body : value :=
  Eval vm_compute in
    body_of (search_courses str search_service (neo4j_service true)
               "cloud" 5 0 None false (student VNone)).

(** GET /major/csye *)
Definition csye_body : value :=
  Eval vm_compute in
    body_of (get_courses_by_major isoformat str ascii_upper search_service "csye" 50).

End Demo.

(** ** The partition, stated on its own

    What the loop of [search_courses] is meant to build, phrased on one
    course and one entry at a time. *)
Section prerequisite_view.
Variable str : value → string.
Variable neo4j_service : Neo4jService.t.
Variable completed_courses : value.

(** The answer of the graph collaborator for a course of the search
    result. *)
Definition prereq_status_of (course : value) : result value :=
  id ← py_getitem course "id";
  Neo4jService.check_prerequisites_completion neo4j_service (str id) completed_courses.

(** Whether that answer reports the prerequisites as satisfied. *)
Definition prerequisites_met (course : value) : bool :=
  match prereq_status_of course ≫= (λ ps, py_getitem ps "prerequisites_met") with
  | Ok met => py_bool met
  | Raise _ => false
  end.

(** The keys the handler may splice into a course record. *)
Definition annotation_keys : list string :=
  ["prerequisite_status"; "eligible"; "missing_prerequisites"; "prerequisite_message"].

(** [entry] is the record [course], annotations apart. *)
Definition copy_of (course entry : value) : Prop :=
  ∃ d e : gmap string value,
    course = VDict d ∧ entry = VDict e ∧
    ∀ k, k ∉ annotation_keys → e !! k = d !! k.

(** [entry] is what an eligible [course] contributes. *)
Definition eligible_entry_of (course entry : value) : Prop :=
  ∃ (d e : gmap string value) (ps : value),
    course = VDict d ∧ entry = VDict e ∧
    prereq_status_of course = Ok ps ∧
    e !! "prerequisite_status" = Some ps ∧
    e !! "eligible" = Some (VBool true) ∧
    ∀ k, k ∉ ["prerequisite_status"; "eligible"] → e !! k = d !! k.

(** [entry] is what an ineligible [course] contributes; [names] are the
    names of its missing prerequisites, in the collaborator's order. *)
Definition ineligible_entry_of (course entry : value) : Prop :=
  ∃ (d e : gmap string value) (ps missing : value) (items : list value) (names : list string),
    course = VDict d ∧ entry = VDict e ∧
    prereq_status_of course = Ok ps ∧
    py_getitem ps "missing_prerequisites" = Ok missing ∧
    py_iter missing = Ok items ∧
    Forall2 (λ p n, py_getitem p "name" = Ok (VStr n)) items names ∧
    e !! "prerequisite_status" = Some ps ∧
    e !! "eligible" = Some (VBool false) ∧
    e !! "missing_prerequisites" = Some missing ∧
    e !! "prerequisite_message" =
      Some (VStr ("Complete one of: " +:+ String.concat ", " names)) ∧
    ∀ k, k ∉ annotation_keys → e !! k = d !! k.

(** A course the loop can process: a dictionary with an [id], for
    which the graph collaborator answers a dictionary holding
    [prerequisites_met] and, when that is falsy, a list of missing
    prerequisites that are dictionaries with a string [name]. *)
Definition processable (course : value) : Prop :=
  ∃ (d ps : gmap string value) (id met : value),
    course = VDict d ∧ d !! "id" = Some id ∧
    Neo4jService.check_prerequisites_completion neo4j_service (str id) completed_courses
      = Ok (VDict ps) ∧
    ps !! "prerequisites_met" = Some met ∧
    (py_bool met = false →
     ∃ (items : list value) (names : list string),
       ps !! "missing_prerequisites" = Some (VList items) ∧
       Forall2 (λ p n, py_getitem p "name" = Ok (VStr n)) items names).

End prerequisite_view.

(** The keys [search_courses] may write into the search result. *)
Definition response_keys : list string :=
  ["eligible_courses"; "ineligible_courses"; "prerequisites_checked";
   "user_completed_courses"; "eligible_count"; "ineligible_count"].

(** ** More collaborators to run the handlers on *)
Module Cases.

(** A search service that returns the same result to every query, and
    knows no course. *)
Definition returning (search_results : value) : CourseSearchService.t string :=
  CourseSearchService.mk string (λ _ _ _ _, Ok search_results) (λ _, Ok None) (λ _ _, Ok []).

(** A result with one course and no [total_count]. *)
Definition no_total_count : gmap string value :=
  {[ "courses" := VList [VDict Demo.csye6200] ]}.

(** A result whose second course lacks its [id]. *)
Definition course_without_id : gmap string value :=
  {[ "courses" := VList [VDict Demo.csye6200; VDict {[ "course_name" := VStr "Untitled" ]};
                         VDict Demo.csye6225];
     "total_count" := VInt 3 ]}.

(** A result with no course. *)
Definition nothing_found : gmap string value :=
  {[ "courses" := VList []; "total_count" := VInt 0; "has_more" := VBool false ]}.

(** A result with one course. *)
Definition one_course : gmap string value :=
  {[ "courses" := VList [VDict Demo.csye6200]; "total_count" := VInt 1 ]}.

(** A search service whose lookups fail. *)
Definition failing (e : exn) : CourseSearchService.t string :=
  CourseSearchService.mk string (λ _ _ _ _, Raise e) (λ _, Raise e) (λ _ _, Raise e).

(** A graph collaborator that knows CSYE6200 only and fails on every
    other course. *)
Definition partial_graph : Neo4jService.t :=
  Neo4jService.mk true
    (λ course_id _, if String.eqb course_id "CSYE6200" then Ok (Demo.status true [])
                    else Raise (Exception "unknown course")).

(** [str.upper] on ASCII text and on two spellings that reach beyond
    it: the long s and the dotless i have [S] and [I] as upper case. *)
Definition upper_beyond_ascii (s : string) : string :=
  if String.eqb s "cſye" then "CSYE"
  else if String.eqb s "ınfo" then "INFO"
  else ascii_upper s.


End Cases.

(** ** The formatted course, stated on its own *)

(** The keys of a formatted course. *)
Definition course_keys : list string :=
  ["id"; "course_id"; "course_name"; "course_description"; "major";
   "domains"; "skills_associated"; "prerequisites"; "created_at"].

(** [field] renders a list attribute: the empty list when the
    attribute is [None] (or any other falsy value), the attribute
    itself otherwise. *)
Definition defaults_to_empty (attribute field : value) : Prop :=
  (attribute = VNone → field = VList []) ∧
  (py_bool attribute = false → field = VList []) ∧
  (py_bool attribute = true → field = attribute).

(** A bind that succeeds is split into its two halves. *)
Ltac bind_inv H :=
  lazymatch type of H with
  | mbind ?f ?m = Ok ?b =>
      let a := fresh "x" in
      let Ha := fresh "H" a in
      destruct m as [a|?] eqn:Ha;
      [ lazymatch type of H with
        | mbind ?g (Ok ?c) = _ => change (g c = Ok b) in H; cbv beta in H
        end
      | discriminate H ]
  end.

(** Reads a key back from a dictionary built by successive updates. *)
Ltac lookup_insert_tac :=
  repeat (rewrite lookup_insert_ne by done); rewrite ?lookup_insert_eq; done.

(** Runs the binds whose first half is known to return, and the
    assignments into a dictionary. *)
Ltac py_step :=
  match goal with
  | |- context [mbind ?f (Ok ?a)] => change (mbind f (Ok a)) with (f a); cbv beta
  | |- context [py_setitem (VDict ?d) ?k ?x] =>
      change (py_setitem (VDict d) k x) with (Ok (VDict (<[k := x]> d)))
  end.
Ltac py_simpl := repeat py_step.

(** The same in a hypothesis. *)
Ltac py_step_in H :=
  match type of H with
  | context [mbind ?f (Ok ?a)] => change (mbind f (Ok a)) with (f a) in H; cbv beta in H
  | context [py_setitem (VDict ?d) ?k ?x] =>
      change (py_setitem (VDict d) k x) with (Ok (VDict (<[k := x]> d))) in H
  end.
Ltac py_simpl_in H := repeat py_step_in H.

(** A failing run [H] and a goal that start with the same bind: case
    on its first half; a failure there settles both. *)
Ltac bind_fails H :=
  match type of H with
  | mbind _ ?m = Raise _ =>
      match goal with
      | |- mbind _ m = Raise _ => destruct m; [py_simpl_in H; py_simpl | exact H]
      end
  end.

(** Two binds over the same first half: case on it. *)
Ltac bind_both :=
  match goal with
  | |- mbind _ ?m = mbind _ ?m => destruct m; [py_simpl | reflexivity]
  end.

(** Reads a key back through [py_getitem]. *)
Ltac getitem_tac :=
  lazy beta iota delta [py_getitem];
  repeat (rewrite lookup_insert_ne by done);
  first [ by rewrite lookup_insert_eq
        | match goal with H : _ !! _ = Some _ |- _ => by rewrite H end ].

(** ** Facts about the built-in operations *)

Lemma bind_Ok {A B} (f : A → result B) (a : A) : (Ok a ≫= f) = f a.
Proof. reflexivity. Qed.

Lemma bind_Raise {A B} (f : A → result B) (e : exn) : (Raise e ≫= f) = Raise e.
Proof. reflexivity. Qed.

Lemma bind_Ok_inv {A B} (f : A → result B) (m : result A) (b : B) :
  m ≫= f = Ok b → ∃ a, m = Ok a ∧ f a = Ok b.
Proof. destruct m as [a|e]; [eauto | discriminate]. Qed.

Lemma py_getitem_Ok_inv v k x :
  py_getitem v k = Ok x → ∃ d, v = VDict d ∧ d !! k = Some x.
Proof.
  destruct v as [| | | | | |d]; try discriminate.
  simpl. destruct (d !! k) eqn:E; [|discriminate].
  intros [= <-]. eauto.
Qed.

Lemma py_join_from_strings i sep (names : list string) :
  py_join_from i sep (VStr <$> names) = Ok (String.concat sep names).
Proof.
  revert i. induction names as [|n names IH]; intros i; [reflexivity|].
  simpl. rewrite IH, bind_Ok. destruct names; reflexivity.
Qed.

Lemma py_join_from_Ok_inv i sep items joined :
  py_join_from i sep items = Ok joined →
  ∃ names, items = VStr <$> names ∧ joined = String.concat sep names.
Proof.
  revert i joined. induction items as [|x items IH]; intros i joined.
  - intros [= <-]. by exists [].
  - simpl. destruct x as [| | | |s| |]; try discriminate.
    intros H. bind_inv H. destruct (IH _ _ Hx) as (names & -> & ->).
    exists (s :: names). split; [reflexivity|].
    injection H as <-. destruct names; reflexivity.
Qed.

Lemma mapM_result_Ok_inv {A B} (f : A → result B) (l : list A) (k : list B) :
  mapM f l = Ok k → Forall2 (λ x y, f x = Ok y) l k.
Proof.
  revert k. induction l as [|x l IH]; intros k; simpl.
  - intros [= <-]. constructor.
  - intros H. bind_inv H. bind_inv H. injection H as <-.
    constructor; auto.
Qed.

Lemma mapM_result_Ok {A B} (f : A → result B) (l : list A) (k : list B) :
  Forall2 (λ x y, f x = Ok y) l k → mapM f l = Ok k.
Proof.
  induction 1 as [|x y l k Hxy _ IH]; [done|].
  simpl. by rewrite Hxy, bind_Ok, IH.
Qed.

Lemma py_getitem_dict d k :
  py_getitem (VDict d) k =
  match d !! k with Some x => Ok x | None => Raise (KeyError (repr_key k)) end.
Proof. reflexivity. Qed.

Lemma py_getitem_insert d k x : py_getitem (VDict (<[k := x]> d)) k = Ok x.
Proof. by rewrite py_getitem_dict, lookup_insert_eq. Qed.

Lemma py_getitem_insert_ne d k k' x :
  k ≠ k' → py_getitem (VDict (<[k := x]> d)) k' = py_getitem (VDict d) k'.
Proof. intros. by rewrite !py_getitem_dict, lookup_insert_ne. Qed.

Lemma py_getitem_Some d k x : d !! k = Some x → py_getitem (VDict d) k = Ok x.
Proof. intros H. by rewrite py_getitem_dict, H. Qed.

Lemma py_unpack_Ok_inv v d : py_unpack v = Ok d → v = VDict d.
Proof. destruct v; try discriminate. by intros [= ->]. Qed.

Lemma py_setitem_dict d k x : py_setitem (VDict d) k x = Ok (VDict (<[k := x]> d)).
Proof. reflexivity. Qed.

(** ** The loop of [search_courses] *)

Section search_courses_loop_facts.
Variable str : value → string.
Variable neo4j_service : Neo4jService.t.
Variable completed_courses : value.

Abbreviation met := (prerequisites_met str neo4j_service completed_courses).
Abbreviation loop := (search_courses_loop str neo4j_service completed_courses).

(** A run of the loop that completes appends to each list, in the
    order of the courses: to the first list the entries of the courses
    whose prerequisites are met, to the second the entries of the
    others. *)
Lemma search_courses_loop_spec courses :
  ∀ eligible ineligible eligible' ineligible',
    loop courses eligible ineligible = Ok (eligible', ineligible') →
    ∃ el inel,
      eligible' = eligible ++ el ∧ ineligible' = ineligible ++ inel ∧
      Forall2 (eligible_entry_of str neo4j_service completed_courses)
        (filter (λ c, met c = true) courses) el ∧
      Forall2 (ineligible_entry_of str neo4j_service completed_courses)
        (filter (λ c, met c = false) courses) inel.
Proof.
  induction courses as [|course rest IH]; intros el0 inel0 el' inel' H.
  - injection H as <- <-. exists [], []. rewrite !app_nil_r. repeat split; constructor.
  - simpl in H.
    bind_inv H. bind_inv H. bind_inv H.
    assert (Hps : prereq_status_of str neo4j_service completed_courses course = Ok x0).
    { unfold prereq_status_of. by rewrite Hx, bind_Ok. }
    assert (Hmet : met course = py_bool x1).
    { unfold prerequisites_met. by rewrite Hps, bind_Ok, Hx1. }
    destruct (py_bool x1) eqn:Hb.
    + bind_inv H. apply py_unpack_Ok_inv in Hx2 as ->.
      apply IH in H as (el & inel & -> & -> & Hel & Hinel).
      eexists (_ :: el), inel. rewrite <- app_assoc. split; [reflexivity|].
      split; [reflexivity|].
      rewrite filter_cons_True by done.
      rewrite filter_cons_False by (rewrite Hmet; done).
      split; [|done].
      constructor; [|done].
      eexists x2, _, x0. repeat split; try done; try lookup_insert_tac.
      intros k Hk. rewrite !lookup_insert_ne; [done|set_solver..].
    + bind_inv H. apply py_unpack_Ok_inv in Hx2 as ->.
      bind_inv H. bind_inv H. bind_inv H. bind_inv H. bind_inv H.
      apply IH in H as (el & inel & -> & -> & Hel & Hinel).
      apply mapM_result_Ok_inv in Hx6.
      apply py_join_from_Ok_inv in Hx7 as (names & -> & ->).
      injection Hx4 as <-.
      eexists el, (VDict _ :: inel). rewrite <- app_assoc. split; [reflexivity|].
      split; [reflexivity|].
      rewrite filter_cons_False by (rewrite Hmet; done).
      rewrite filter_cons_True by done.
      split; [done|].
      constructor; [|done].
      eexists x2, _, x0, x3, x5, names. repeat split; try done; try lookup_insert_tac.
      * by apply Forall2_fmap_r in Hx6.
      * intros k Hk. unfold annotation_keys in Hk.
        rewrite !lookup_insert_ne; [done|set_solver..].
Qed.

End search_courses_loop_facts.

(** The loop runs to its end on courses it can process. *)
Lemma search_courses_loop_returns str neo4j_service completed_courses courses :
  Forall (processable str neo4j_service completed_courses) courses →
  ∀ eligible ineligible,
    ∃ eligible' ineligible',
      search_courses_loop str neo4j_service completed_courses courses eligible ineligible
      = Ok (eligible', ineligible').
Proof.
  induction 1 as [|course rest Hc _ IH]; intros el inel; [by eexists _, _|].
  destruct Hc as (d & ps & id & met & -> & Hid & Hps & Hmet & Hmissing).
  simpl. rewrite Hid. py_simpl. rewrite Hps. py_simpl.
  rewrite (py_getitem_Some _ _ _ Hmet). py_simpl.
  destruct (py_bool met); [apply IH|].
  destruct Hmissing as (items & names & Hitems & Hnames); [done|].
  rewrite (py_getitem_Some _ _ _ Hitems). py_simpl. simpl py_iter. py_simpl.
  rewrite (mapM_result_Ok _ items (VStr <$> names)) by by apply Forall2_fmap_r.
  py_simpl. unfold py_join. rewrite py_join_from_strings. py_simpl. apply IH.
Qed.


(** Splitting a list by a boolean test loses and repeats nothing. *)
Lemma filter_bool_split {A} (f : A → bool) (l : list A) :
  l ≡ₚ filter (λ x, f x = true) l ++ filter (λ x, f x = false) l.
Proof.
  induction l as [|x l IH]; [done|].
  destruct (f x) eqn:Hx.
  - rewrite filter_cons_True, filter_cons_False by (rewrite ?Hx; done).
    simpl. by f_equiv.
  - rewrite filter_cons_False, filter_cons_True by (rewrite ?Hx; done).
    by rewrite <- Permutation_middle, <- IH.
Qed.

Lemma eligible_entry_copy str neo4j_service completed_courses course entry :
  eligible_entry_of str neo4j_service completed_courses course entry →
  copy_of course entry.
Proof.
  intros (d & e & ps & -> & -> & _ & _ & _ & Hcopy).
  exists d, e. repeat split. intros k Hk. apply Hcopy.
  unfold annotation_keys in Hk. rewrite !not_elem_of_cons in *. tauto.
Qed.

Lemma ineligible_entry_copy str neo4j_service completed_courses course entry :
  ineligible_entry_of str neo4j_service completed_courses course entry →
  copy_of course entry.
Proof.
  intros (d & e & ps & missing & items & names & -> & -> & H).
  exists d, e. repeat split. apply H.
Qed.

(** ** The search handler, path by path *)

Section search_courses_facts.
Context {datetime : Type}.
Variable str : value → string.
Variable search_service : CourseSearchService.t datetime.
Variable neo4j_service : Neo4jService.t.
Variables (q : string) (limit offset : Z) (major : option string).

Abbreviation search := (search_courses str search_service neo4j_service q limit offset major).
Abbreviation search_body :=
  (search_courses_body str search_service neo4j_service q limit offset major).

(** The handler returns exactly when its [try] block does. *)
Lemma search_courses_Return check_prerequisites current_user body :
  search check_prerequisites current_user = Return body ↔
  search_body check_prerequisites current_user = Ok body.
Proof.
  unfold search_courses.
  destruct (search_courses_body _ _ _ _ _ _ _ _ _) as [b|[]]; split; intros H;
    by simplify_eq.
Qed.

(** The response of a request that went through the prerequisite
    check, in terms of the run of the loop. *)
Lemma search_courses_checked_inv current_user body :
  Neo4jService.is_configured neo4j_service = true →
  search true current_user = Return body →
  ∃ (d : gmap string value) (cv : value) (courses eligible ineligible : list value),
    CourseSearchService.search_courses search_service q limit offset major = Ok (VDict d) ∧
    d !! "courses" = Some cv ∧
    py_iter cv = Ok courses ∧
    search_courses_loop str neo4j_service
      (py_or (User.completed_courses current_user) (VList [])) courses [] []
      = Ok (eligible, ineligible) ∧
    body = VDict
      (<["ineligible_count" := VInt (Z.of_nat (length ineligible))]>
        (<["eligible_count" := VInt (Z.of_nat (length eligible))]>
          (<["user_completed_courses" :=
               py_or (User.completed_courses current_user) (VList [])]>
            (<["prerequisites_checked" := VBool true]>
              (<["ineligible_courses" := VList ineligible]>
                (<["eligible_courses" := VList eligible]> d)))))).
Proof.
  intros Hconf H. apply search_courses_Return in H.
  unfold search_courses_body in H. rewrite Hconf in H. simpl andb in H. cbv iota in H.
  bind_inv H. rename x into sr, Hx into Hsearch.
  bind_inv H. rename x into sr', Hx into Hbranch.
  bind_inv Hbranch. rename x into cv, Hx into Hcv.
  apply py_getitem_Ok_inv in Hcv as (d & -> & Hcourses).
  bind_inv Hbranch. rename x into courses, Hx into Hiter.
  bind_inv Hbranch. destruct x as [eligible ineligible].
  rewrite !py_setitem_dict in Hbranch.
  repeat (rewrite bind_Ok in Hbranch; cbv beta in Hbranch; rewrite ?py_setitem_dict in Hbranch).
  injection Hbranch as <-.
  bind_inv H. bind_inv H. injection H as <-.
  exists d, cv, courses, eligible, ineligible. done.
Qed.

(** The response of a request that skipped the prerequisite check. *)
Lemma search_courses_unchecked_inv check_prerequisites current_user body :
  check_prerequisites && Neo4jService.is_configured neo4j_service = false →
  search check_prerequisites current_user = Return body →
  ∃ (d : gmap string value) (cv : value) (n : Z),
    CourseSearchService.search_courses search_service q limit offset major = Ok (VDict d) ∧
    d !! "courses" = Some cv ∧
    py_len cv = Ok n ∧
    body = VDict
      (<["ineligible_count" := VInt 0]>
        (<["eligible_count" := VInt n]>
          (<["prerequisites_checked" := VBool false]>
            (<["ineligible_courses" := VList []]>
              (<["eligible_courses" := cv]> d))))).
Proof.
  intros Hoff H. apply search_courses_Return in H.
  unfold search_courses_body in H. rewrite Hoff in H. cbv iota in H.
  bind_inv H. rename x into sr, Hx into Hsearch.
  bind_inv H. rename x into sr', Hx into Hbranch.
  bind_inv Hbranch. rename x into cv, Hx into Hcv.
  apply py_getitem_Ok_inv in Hcv as (d & -> & Hcourses).
  repeat (rewrite ?py_setitem_dict, ?bind_Ok in Hbranch; cbv beta in Hbranch).
  bind_inv Hbranch. rename x into cv', Hx into Hcv'.
  bind_inv Hbranch. rename x into n, Hx into Hlen.
  repeat (rewrite ?py_setitem_dict, ?bind_Ok in Hbranch; cbv beta in Hbranch).
  injection Hbranch as <-.
  simpl in Hcv'. rewrite !lookup_insert_ne, Hcourses in Hcv' by done.
  injection Hcv' as <-.
  bind_inv H. bind_inv H. injection H as <-.
  exists d, cv, n. done.
Qed.

(** A well-formed search result is always answered when the check is
    skipped. *)
Lemma search_courses_unchecked_returns check_prerequisites current_user d courses t :
  check_prerequisites && Neo4jService.is_configured neo4j_service = false →
  CourseSearchService.search_courses search_service q limit offset major = Ok (VDict d) →
  d !! "courses" = Some (VList courses) →
  d !! "total_count" = Some t →
  ∃ body, search check_prerequisites current_user = Return body.
Proof.
  intros Hoff Hfound Hcourses Htotal.
  unfold search_courses, search_courses_body. rewrite Hoff, Hfound. py_simpl.
  rewrite (py_getitem_Some _ _ _ Hcourses). py_simpl.
  replace (py_getitem (VDict _) "courses") with (Ok (A:=value) (VList courses))
    by (symmetry; getitem_tac).
  py_simpl. simpl py_len. py_simpl.
  replace (py_getitem (VDict _) "total_count") with (Ok (A:=value) t)
    by (symmetry; getitem_tac).
  py_simpl.
  destruct check_prerequisites; [|by eexists].
  replace (py_getitem (VDict _) "eligible_count")
    with (Ok (A:=value) (VInt (Z.of_nat (length courses))))
    by (symmetry; getitem_tac).
  py_simpl.
  replace (py_getitem (VDict _) "ineligible_count") with (Ok (A:=value) (VInt 0))
    by (symmetry; getitem_tac).
  by eexists.
Qed.

(** A well-formed search result whose courses can all be processed is
    always answered when the check runs. *)
Lemma search_courses_checked_returns current_user d courses t :
  Neo4jService.is_configured neo4j_service = true →
  CourseSearchService.search_courses search_service q limit offset major = Ok (VDict d) →
  d !! "courses" = Some (VList courses) →
  d !! "total_count" = Some t →
  Forall (processable str neo4j_service
            (py_or (User.completed_courses current_user) (VList []))) courses →
  ∃ body, search true current_user = Return body.
Proof.
  intros Hconf Hfound Hcourses Htotal Hall.
  destruct (search_courses_loop_returns _ _ _ _ Hall [] []) as (el & inel & Hloop).
  unfold search_courses, search_courses_body. rewrite Hconf, Hfound. py_simpl.
  simpl andb. cbv iota.
  rewrite (py_getitem_Some _ _ _ Hcourses). py_simpl. simpl py_iter. py_simpl.
  rewrite Hloop. py_simpl. cbv beta iota. py_simpl.
  replace (py_getitem (VDict _) "total_count") with (Ok (A:=value) t)
    by (symmetry; getitem_tac).
  py_simpl.
  replace (py_getitem (VDict _) "eligible_count")
    with (Ok (A:=value) (VInt (Z.of_nat (length el))))
    by (symmetry; getitem_tac).
  py_simpl.
  replace (py_getitem (VDict _) "ineligible_count")
    with (Ok (A:=value) (VInt (Z.of_nat (length inel))))
    by (symmetry; getitem_tac).
  by eexists.
Qed.

End search_courses_facts.

(** ** Properties of the search handler *)

Section search_courses_claims.
Context {datetime : Type}.
Variable str : value → string.
Variable search_service : CourseSearchService.t datetime.
Variable neo4j_service : Neo4jService.t.
Variables (q : string) (limit offset : Z) (major : option string).

Abbreviation handler := (search_courses str search_service neo4j_service q limit offset major).
Abbreviation found := (CourseSearchService.search_courses search_service q limit offset major).
Abbreviation done_by u := (py_or (User.completed_courses u) (VList [])).

(** C1. With prerequisite checking on and the graph collaborator
    configured, a response splits the courses of the search result in
    two: every course has its copy in exactly one of [eligible_courses]
    and [ineligible_courses], each count is the length of its list, and
    the two counts add up to the number of courses found. *)
Theorem search_courses_partitions current_user body :
  Neo4jService.is_configured neo4j_service = true →
  handler true current_user = Return body →
  ∃ (search_results cv : value) (courses eligible ineligible : list value)
    (to_eligible to_ineligible : list value),
    found = Ok search_results ∧
    py_getitem search_results "courses" = Ok cv ∧
    py_iter cv = Ok courses ∧
    py_getitem body "eligible_courses" = Ok (VList eligible) ∧
    py_getitem body "ineligible_courses" = Ok (VList ineligible) ∧
    py_getitem body "eligible_count" = Ok (VInt (Z.of_nat (length eligible))) ∧
    py_getitem body "ineligible_count" = Ok (VInt (Z.of_nat (length ineligible))) ∧
    Z.of_nat (length eligible) + Z.of_nat (length ineligible) = Z.of_nat (length courses) ∧
    courses ≡ₚ to_eligible ++ to_ineligible ∧
    Forall2 copy_of to_eligible eligible ∧
    Forall2 copy_of to_ineligible ineligible.
Proof.
  intros Hconf H.
  apply search_courses_checked_inv in H
    as (d & cv & courses & eligible & ineligible & Hfound & Hcv & Hiter & Hloop & ->);
    [|done].
  apply search_courses_loop_spec in Hloop as (el & inel & -> & -> & Hel & Hinel).
  rewrite !app_nil_l.
  pose proof (filter_bool_split
    (prerequisites_met str neo4j_service (done_by current_user)) courses) as Hsplit.
  eexists (VDict d), cv, courses, el, inel, _, _.
  split; [done|]. split; [by apply py_getitem_Some|]. split; [done|].
  do 4 (split; [getitem_tac|]).
  split; [|split; [exact Hsplit|split]].
  - apply Permutation_length in Hsplit. rewrite length_app in Hsplit.
    apply Forall2_length in Hel, Hinel. lia.
  - eapply Forall2_impl; [exact Hel|]. apply eligible_entry_copy.
  - eapply Forall2_impl; [exact Hinel|]. apply ineligible_entry_copy.
Qed.

(** C2. When the check is skipped, or the graph collaborator is not
    configured, a response carries the list of the search result as it
    came under [eligible_courses], an empty [ineligible_courses],
    [prerequisites_checked] false, [ineligible_count] 0 and, as
    [eligible_count], the length of the list found. *)
Theorem search_courses_unchecked check_prerequisites current_user body :
  check_prerequisites && Neo4jService.is_configured neo4j_service = false →
  handler check_prerequisites current_user = Return body →
  ∃ (search_results cv : value) (n : Z),
    found = Ok search_results ∧
    py_getitem search_results "courses" = Ok cv ∧
    py_len cv = Ok n ∧
    py_getitem body "eligible_courses" = Ok cv ∧
    py_getitem body "ineligible_courses" = Ok (VList []) ∧
    py_getitem body "prerequisites_checked" = Ok (VBool false) ∧
    py_getitem body "ineligible_count" = Ok (VInt 0) ∧
    py_getitem body "eligible_count" = Ok (VInt n).
Proof.
  intros Hoff H.
  apply search_courses_unchecked_inv in H as (d & cv & n & Hfound & Hcv & Hlen & ->);
    [|done].
  exists (VDict d), cv, n.
  split; [done|]. split; [by apply py_getitem_Some|]. split; [done|].
  repeat split; getitem_tac.
Qed.

(** C4. When the graph collaborator is not configured, the
    [check_prerequisites] flag changes nothing in what the handler
    hands back: the request with the flag set gets the outcome of the
    same request with the flag cleared. *)
Theorem search_courses_unconfigured_ignores_flag current_user :
  Neo4jService.is_configured neo4j_service = false →
  handler true current_user = handler false current_user.
Proof.
  intros Hconf. unfold search_courses, search_courses_body.
  rewrite Hconf. simpl andb. cbv iota.
  destruct found as [sr|e]; [|done]. py_simpl.
  destruct (py_getitem sr "courses") as [cv|e] eqn:Hcv; [|done].
  apply py_getitem_Ok_inv in Hcv as (d & -> & Hcourses).
  py_simpl.
  replace (py_getitem (VDict _) "courses") with (Ok (A:=value) cv)
    by (symmetry; getitem_tac).
  py_simpl.
  destruct (py_len cv) as [n|e]; [|done].
  py_simpl.
  destruct (py_getitem _ "total_count") as [t|e]; [|done].
  py_simpl.
  replace (py_getitem (VDict _) "eligible_count") with (Ok (A:=value) (VInt n))
    by (symmetry; getitem_tac).
  py_simpl.
  replace (py_getitem (VDict _) "ineligible_count") with (Ok (A:=value) (VInt 0))
    by (symmetry; getitem_tac).
  done.
Qed.

(** C5. With the check on, the entries of [ineligible_courses] are, in
    order, those of the courses whose prerequisites are reported as not
    met; each is the course record with [prerequisite_status] set to the
    collaborator's answer, [eligible] to false, [missing_prerequisites]
    to the answer's list and [prerequisite_message] to the text
    "Complete one of: " followed by the names of the missing
    prerequisites separated by ", ". *)
Theorem search_courses_ineligible_entries current_user body :
  Neo4jService.is_configured neo4j_service = true →
  handler true current_user = Return body →
  ∃ (search_results cv : value) (courses ineligible : list value),
    found = Ok search_results ∧
    py_getitem search_results "courses" = Ok cv ∧
    py_iter cv = Ok courses ∧
    py_getitem body "ineligible_courses" = Ok (VList ineligible) ∧
    Forall2 (ineligible_entry_of str neo4j_service (done_by current_user))
      (filter (λ c, prerequisites_met str neo4j_service (done_by current_user) c = false)
         courses)
      ineligible.
Proof.
  intros Hconf H.
  apply search_courses_checked_inv in H
    as (d & cv & courses & eligible & ineligible & Hfound & Hcv & Hiter & Hloop & ->);
    [|done].
  apply search_courses_loop_spec in Hloop as (el & inel & -> & -> & Hel & Hinel).
  rewrite !app_nil_l.
  exists (VDict d), cv, courses, inel.
  split; [done|]. split; [by apply py_getitem_Some|]. split; [done|].
  split; [getitem_tac|done].
Qed.

(** C8. With the check on, the entries of [eligible_courses] are, in
    the order of the search result, those of the courses whose
    prerequisites are reported as met, each being the course record
    with [prerequisite_status] set to the collaborator's answer and
    [eligible] to true; the entries of [ineligible_courses] follow the
    order of the search result as well. *)
Theorem search_courses_eligible_entries current_user body :
  Neo4jService.is_configured neo4j_service = true →
  handler true current_user = Return body →
  ∃ (search_results cv : value) (courses eligible ineligible : list value),
    found = Ok search_results ∧
    py_getitem search_results "courses" = Ok cv ∧
    py_iter cv = Ok courses ∧
    py_getitem body "eligible_courses" = Ok (VList eligible) ∧
    py_getitem body "ineligible_courses" = Ok (VList ineligible) ∧
    Forall2 (eligible_entry_of str neo4j_service (done_by current_user))
      (filter (λ c, prerequisites_met str neo4j_service (done_by current_user) c = true)
         courses)
      eligible ∧
    Forall2 copy_of
      (filter (λ c, prerequisites_met str neo4j_service (done_by current_user) c = false)
         courses)
      ineligible.
Proof.
  intros Hconf H.
  apply search_courses_checked_inv in H
    as (d & cv & courses & eligible & ineligible & Hfound & Hcv & Hiter & Hloop & ->);
    [|done].
  apply search_courses_loop_spec in Hloop as (el & inel & -> & -> & Hel & Hinel).
  rewrite !app_nil_l.
  exists (VDict d), cv, courses, el, inel.
  split; [done|]. split; [by apply py_getitem_Some|]. split; [done|].
  do 2 (split; [getitem_tac|]).
  split; [done|].
  eapply Forall2_impl; [exact Hinel|]. apply ineligible_entry_copy.
Qed.



End search_courses_claims.

(** ** Properties of the two course listings *)

Lemma py_or_defaults_to_empty attribute :
  defaults_to_empty attribute (py_or attribute (VList [])).
Proof.
  unfold defaults_to_empty, py_or. repeat split.
  - by intros ->.
  - by intros ->.
  - by intros ->.
Qed.

Lemma upper_ascii_idemp c : upper_ascii (upper_ascii c) = upper_ascii c.
Proof. by destruct c as [[] [] [] [] [] [] [] []]. Qed.

Lemma ascii_upper_idemp major : ascii_upper (ascii_upper major) = ascii_upper major.
Proof.
  induction major as [|c major IH]; [done|].
  simpl. by rewrite upper_ascii_idemp, IH.
Qed.

(** The allowed majors are ASCII text in upper case already: any
    [upper] that is [str.upper] on ASCII text leaves them as they
    are. *)
Lemma valid_major_upper (upper : string → string) major :
  (∀ s, is_ascii s = true → upper s = ascii_upper s) →
  major ∈ valid_majors → upper major = major.
Proof.
  intros Hascii Hin. unfold valid_majors in Hin.
  rewrite !elem_of_cons in Hin.
  destruct Hin as [->|[->|[->|Hin]]]; [by rewrite Hascii..|by apply elem_of_nil in Hin].
Qed.

Lemma valid_majors_joined_eq : valid_majors_joined = Ok "CSYE, INFO, DAMG".
Proof. reflexivity. Qed.

Section listing_claims.
Context {datetime : Type}.
Variable isoformat : datetime → string.
Variable str : value → string.
Variable upper : string → string.
Variable search_service : CourseSearchService.t datetime.

Abbreviation by_major := (get_courses_by_major isoformat str upper search_service).

(** The formatting loop appends the formatted courses in order. *)
Lemma format_courses_loop_spec (courses : list (Course.t datetime)) formatted :
  format_courses_loop isoformat str courses formatted =
  formatted ++ (format_course isoformat str <$> courses).
Proof.
  revert formatted. induction courses as [|course rest IH]; intros formatted; simpl.
  - by rewrite app_nil_r.
  - by rewrite IH, <- app_assoc.
Qed.

(** C6. The major is judged by its upper-case form against CSYE, INFO
    and DAMG, whatever [str.upper] does outside ASCII: a major whose
    upper-case form is not one of them gets a 400 that lists the
    three; two spellings with the same upper-case form get the same
    outcome, as do two ASCII spellings that differ in the case of
    their letters only ("csye" and "CSYE"); a response carries the
    upper-case form, and asking again with that form changes
    nothing. *)
Theorem get_courses_by_major_validates major limit :
  (∀ s, is_ascii s = true → upper s = ascii_upper s) →
  (upper major ∉ ["CSYE"; "INFO"; "DAMG"] →
     by_major major limit =
     HTTPException 400 "Invalid major. Must be one of: CSYE, INFO, DAMG") ∧
  (∀ major', upper major' = upper major →
     by_major major' limit = by_major major limit) ∧
  (∀ major', is_ascii major = true → is_ascii major' = true →
     ascii_upper major' = ascii_upper major →
     by_major major' limit = by_major major limit) ∧
  (upper major ∈ ["CSYE"; "INFO"; "DAMG"] →
     by_major (upper major) limit = by_major major limit) ∧
  (∀ body, by_major major limit = Return body →
     upper major ∈ ["CSYE"; "INFO"; "DAMG"] ∧
     py_getitem body "major" = Ok (VStr (upper major))) ∧
  (upper major ∈ ["CSYE"; "INFO"; "DAMG"] →
     ∀ detail, by_major major limit ≠ HTTPException 400 detail).
Proof.
  intros Hascii.
  assert (Hsame : ∀ major', upper major' = upper major →
            by_major major' limit = by_major major limit).
  { intros major' H. unfold get_courses_by_major. by rewrite H. }
  split; [|split; [exact Hsame|split; [|split; [|split]]]].
  - intros Hbad. unfold get_courses_by_major.
    rewrite bool_decide_eq_true_2 by done. by rewrite valid_majors_joined_eq.
  - intros major' Hm Hm' H. apply Hsame. by rewrite !Hascii, H.
  - intros Hin. apply Hsame. by apply valid_major_upper.
  - intros body H. unfold get_courses_by_major in H.
    case_bool_decide as Hin.
    + by rewrite valid_majors_joined_eq in H.
    + split; [exact Hin|].
      destruct (CourseSearchService.get_courses_by_major _ _ _); [|done].
      injection H as <-. getitem_tac.
  - intros Hin detail. unfold get_courses_by_major.
    rewrite bool_decide_eq_false_2 by (by intros Hbad).
    by destruct (CourseSearchService.get_courses_by_major _ _ _).
Qed.

(** C10. In a response of the listing by major, [total_count] is the
    length of the list under [courses], which holds one formatted
    course per course the collaborator returned for the limit. *)
Theorem get_courses_by_major_total_count major limit body :
  by_major major limit = Return body →
  ∃ (courses : list (Course.t datetime)) (formatted : list value),
    CourseSearchService.get_courses_by_major search_service (upper major) limit
      = Ok courses ∧
    formatted = format_course isoformat str <$> courses ∧
    py_getitem body "courses" = Ok (VList formatted) ∧
    py_getitem body "total_count" = Ok (VInt (Z.of_nat (length formatted))) ∧
    length formatted = length courses.
Proof.
  intros H. unfold get_courses_by_major in H.
  case_bool_decide as Hin; [by rewrite valid_majors_joined_eq in H|].
  destruct (CourseSearchService.get_courses_by_major _ _ _) as [courses|e]; [|done].
  injection H as <-. rewrite format_courses_loop_spec, app_nil_l.
  exists courses, (format_course isoformat str <$> courses).
  split; [done|]. split; [done|].
  split; [getitem_tac|]. split; [getitem_tac|].
  by rewrite length_fmap.
Qed.

End listing_claims.

Section lookup_claims.
Context {datetime : Type}.
Variable isoformat : datetime → string.
Variable str : value → string.
Variable search_service : CourseSearchService.t datetime.

Abbreviation by_id := (get_course_by_id isoformat str search_service).

(** C7. The lookup by id answers 404 exactly when the collaborator
    finds no course.  When it finds one, the response holds the nine
    keys of a formatted course: the id through [str], code, name,
    description and major as they are, the three list attributes with
    the empty list in place of [None], and the creation time in ISO
    format, or [None] when the course has none. *)
Theorem get_course_by_id_outcome course_id :
  ((∃ detail, by_id course_id = HTTPException 404 detail) ↔
   CourseSearchService.get_course_by_id search_service course_id = Ok None) ∧
  (∀ course,
     CourseSearchService.get_course_by_id search_service course_id = Ok (Some course) →
     ∃ (body : gmap string value) (domains skills prerequisites : value),
       by_id course_id = Return (VDict body) ∧
       body !! "id" = Some (VStr (str (Course.id course))) ∧
       body !! "course_id" = Some (Course.course_id course) ∧
       body !! "course_name" = Some (Course.course_name course) ∧
       body !! "course_description" = Some (Course.course_description course) ∧
       body !! "major" = Some (Course.major course) ∧
       body !! "domains" = Some domains ∧
       defaults_to_empty (Course.domains course) domains ∧
       body !! "skills_associated" = Some skills ∧
       defaults_to_empty (Course.skills_associated course) skills ∧
       body !! "prerequisites" = Some prerequisites ∧
       defaults_to_empty (Course.prerequisites course) prerequisites ∧
       body !! "created_at" =
         Some (match Course.created_at course with
               | Some t => VStr (isoformat t)
               | None => VNone
               end) ∧
       ∀ k, k ∉ course_keys → body !! k = None).
Proof.
  split.
  - unfold get_course_by_id.
    destruct (CourseSearchService.get_course_by_id _ _) as [[course|]|e]; simpl.
    + split; [by intros [detail H]|done].
    + split; [done|]. intros _. by eexists.
    + split; [by intros [detail H]|done].
  - intros course H. unfold get_course_by_id. rewrite H. simpl.
    eexists _, _, _, _. split; [reflexivity|].
    do 5 (split; [by repeat (rewrite lookup_insert_ne by done);
                     rewrite lookup_insert_eq|]).
    split; [by repeat (rewrite lookup_insert_ne by done); rewrite lookup_insert_eq|].
    split; [apply py_or_defaults_to_empty|].
    split; [by repeat (rewrite lookup_insert_ne by done); rewrite lookup_insert_eq|].
    split; [apply py_or_defaults_to_empty|].
    split; [by repeat (rewrite lookup_insert_ne by done); rewrite lookup_insert_eq|].
    split; [apply py_or_defaults_to_empty|].
    split.
    + by repeat (rewrite lookup_insert_ne by done); rewrite lookup_singleton_eq.
    + intros k Hk. unfold course_keys in Hk. rewrite !not_elem_of_cons in Hk.
      repeat (rewrite lookup_insert_ne by (intros <-; tauto)).
      apply lookup_singleton_ne. intros <-. tauto.
Qed.

End lookup_claims.

(** ** The properties on the small catalogue *)

Lemma search_courses_partitions_witness :
  Neo4jService.is_configured (Demo.neo4j_service true) = true ∧
  search_courses Demo.str Demo.search_service (Demo.neo4j_service true)
    "cloud" 5 0 None true (Demo.student VNone) = Return Demo.checked_body ∧
  ∃ eligible ineligible : list value,
    py_getitem Demo.checked_body "eligible_courses" = Ok (VList eligible) ∧
    py_getitem Demo.checked_body "ineligible_courses" = Ok (VList ineligible) ∧
    Z.of_nat (length eligible) + Z.of_nat (length ineligible) = 2.
Proof.
  assert (Hconf : Neo4jService.is_configured (Demo.neo4j_service true) = true)
    by reflexivity.
  assert (Hrun : search_courses Demo.str Demo.search_service (Demo.neo4j_service true)
                   "cloud" 5 0 None true (Demo.student VNone) = Return Demo.checked_body)
    by (vm_compute; reflexivity).
  split; [exact Hconf|]. split; [exact Hrun|].
  destruct (search_courses_partitions Demo.str Demo.search_service (Demo.neo4j_service true)
              "cloud" 5 0 None (Demo.student VNone) Demo.checked_body Hconf Hrun)
    as (sr & cv & courses & el & inel & te & ti & Hfound & Hcv & Hiter & Hel & Hinel
        & _ & _ & Hsum & _).
  exists el, inel. split; [exact Hel|]. split; [exact Hinel|].
  injection Hfound as <-. injection Hcv as <-. injection Hiter as <-. exact Hsum.
Defined.

Lemma search_courses_unchecked_witness :
  ∃ (search_results cv : value) (n : Z),
    CourseSearchService.search_courses Demo.search_service "cloud" 5 0 None
      = Ok search_results ∧
    py_getitem search_results "courses" = Ok cv ∧
    py_len cv = Ok n ∧
    py_getitem Demo.unchecked_body "eligible_courses" = Ok cv ∧
    py_getitem Demo.unchecked_body "ineligible_courses" = Ok (VList []) ∧
    py_getitem Demo.unchecked_body "prerequisites_checked" = Ok (VBool false) ∧
    py_getitem Demo.unchecked_body "ineligible_count" = Ok (VInt 0) ∧
    py_getitem Demo.unchecked_body "eligible_count" = Ok (VInt n).
Proof.
  apply (search_courses_unchecked Demo.str Demo.search_service (Demo.neo4j_service true)
           "cloud" 5 0 None false (Demo.student VNone) Demo.unchecked_body).
  - reflexivity.
  - vm_compute. reflexivity.
Defined.



Lemma search_courses_unconfigured_ignores_flag_witness :
  search_courses Demo.str Demo.search_service (Demo.neo4j_service false)
    "cloud" 5 0 None true (Demo.student VNone) =
  search_courses Demo.str Demo.search_service (Demo.neo4j_service false)
    "cloud" 5 0 None false (Demo.student VNone).
Proof.
  apply (search_courses_unconfigured_ignores_flag Demo.str Demo.search_service
           (Demo.neo4j_service false) "cloud" 5 0 None (Demo.student VNone)).
  reflexivity.
Defined.

Lemma search_courses_ineligible_entries_witness :
  ∃ (search_results cv : value) (courses ineligible : list value),
    CourseSearchService.search_courses Demo.search_service "cloud" 5 0 None
      = Ok search_results ∧
    py_getitem search_results "courses" = Ok cv ∧
    py_iter cv = Ok courses ∧
    py_getitem Demo.checked_body "ineligible_courses" = Ok (VList ineligible) ∧
    Forall2 (ineligible_entry_of Demo.str (Demo.neo4j_service true) (VList []))
      (filter (λ c, prerequisites_met Demo.str (Demo.neo4j_service true) (VList []) c
                    = false) courses)
      ineligible.
Proof.
  apply (search_courses_ineligible_entries Demo.str Demo.search_service
           (Demo.neo4j_service true) "cloud" 5 0 None (Demo.student VNone)
           Demo.checked_body).
  - reflexivity.
  - vm_compute. reflexivity.
Defined.

Lemma search_courses_eligible_entries_witness :
  ∃ (search_results cv : value) (courses eligible ineligible : list value),
    CourseSearchService.search_courses Demo.search_service "cloud" 5 0 None
      = Ok search_results ∧
    py_getitem search_results "courses" = Ok cv ∧
    py_iter cv = Ok courses ∧
    py_getitem Demo.checked_body "eligible_courses" = Ok (VList eligible) ∧
    py_getitem Demo.checked_body "ineligible_courses" = Ok (VList ineligible) ∧
    Forall2 (eligible_entry_of Demo.str (Demo.neo4j_service true) (VList []))
      (filter (λ c, prerequisites_met Demo.str (Demo.neo4j_service true) (VList []) c
                    = true) courses)
      eligible ∧
    Forall2 copy_of
      (filter (λ c, prerequisites_met Demo.str (Demo.neo4j_service true) (VList []) c
                    = false) courses)
      ineligible.
Proof.
  apply (search_courses_eligible_entries Demo.str Demo.search_service
           (Demo.neo4j_service true) "cloud" 5 0 None (Demo.student VNone)
           Demo.checked_body).
  - reflexivity.
  - vm_compute. reflexivity.
Defined.


Lemma get_courses_by_major_validates_witness :
  (∀ s, is_ascii s = true → ascii_upper s = ascii_upper s) ∧
  get_courses_by_major Demo.isoformat Demo.str ascii_upper Demo.search_service "xyz" 50 =
    HTTPException 400 "Invalid major. Must be one of: CSYE, INFO, DAMG" ∧
  get_courses_by_major Demo.isoformat Demo.str ascii_upper Demo.search_service "csye" 50 =
    get_courses_by_major Demo.isoformat Demo.str ascii_upper Demo.search_service "CSYE" 50 ∧
  get_courses_by_major Demo.isoformat Demo.str ascii_upper Demo.search_service "CSYE" 50 =
    get_courses_by_major Demo.isoformat Demo.str ascii_upper Demo.search_service "csye" 50 ∧
  py_getitem Demo.csye_body "major" = Ok (VStr "CSYE").
Proof.
  assert (Hascii : ∀ s, is_ascii s = true → ascii_upper s = ascii_upper s)
    by reflexivity.
  split; [exact Hascii|]. split; [|split; [|split]].
  - destruct (get_courses_by_major_validates Demo.isoformat Demo.str ascii_upper
                Demo.search_service "xyz" 50 Hascii) as (Hbad & _).
    apply Hbad. apply (bool_decide_unpack _). vm_compute. exact I.
  - destruct (get_courses_by_major_validates Demo.isoformat Demo.str ascii_upper
                Demo.search_service "CSYE" 50 Hascii) as (_ & _ & Hcase & _).
    apply Hcase; reflexivity.
  - destruct (get_courses_by_major_validates Demo.isoformat Demo.str ascii_upper
                Demo.search_service "csye" 50 Hascii) as (_ & _ & _ & Hagain & _).
    apply Hagain. apply (bool_decide_unpack _). vm_compute. exact I.
  - destruct (get_courses_by_major_validates Demo.isoformat Demo.str ascii_upper
                Demo.search_service "csye" 50 Hascii) as (_ & _ & _ & _ & Hbody & _).
    apply Hbody. vm_compute. reflexivity.
Defined.

Lemma get_courses_by_major_total_count_witness :
  ∃ (courses : list (Course.t string)) (formatted : list value),
    CourseSearchService.get_courses_by_major Demo.search_service (ascii_upper "csye") 50
      = Ok courses ∧
    formatted = format_course Demo.isoformat Demo.str <$> courses ∧
    py_getitem Demo.csye_body "courses" = Ok (VList formatted) ∧
    py_getitem Demo.csye_body "total_count" = Ok (VInt (Z.of_nat (length formatted))) ∧
    length formatted = length courses.
Proof.
  apply (get_courses_by_major_total_count Demo.isoformat Demo.str ascii_upper
           Demo.search_service "csye" 50 Demo.csye_body).
  vm_compute. reflexivity.
Defined.

Lemma get_course_by_id_outcome_witness :
  (∃ detail,
     get_course_by_id Demo.isoformat Demo.str Demo.search_service "CSYE9999"
     = HTTPException 404 detail) ∧
  ∃ body : gmap string value,
    get_course_by_id Demo.isoformat Demo.str Demo.search_service "CSYE6225"
      = Return (VDict body) ∧
    body !! "id" = Some (VStr "1") ∧
    body !! "domains" = Some (VList []) ∧
    body !! "created_at" = Some (VStr "2024-01-05T10:00:00").
Proof.
  split.
  - destruct (get_course_by_id_outcome Demo.isoformat Demo.str Demo.search_service
                "CSYE9999") as [Hmissing _].
    apply Hmissing. reflexivity.
  - destruct (get_course_by_id_outcome Demo.isoformat Demo.str Demo.search_service
                "CSYE6225") as [_ Hfound].
    destruct (Hfound (Demo.row "CSYE6225" "Cloud" (Some "2024-01-05T10:00:00")))
      as (body & domains & skills & prereqs & Hret & Hid & _ & _ & _ & _
          & Hdomains & Hdef & _ & _ & _ & _ & Hcreated & _); [reflexivity|].
    exists body. split; [exact Hret|]. split; [exact Hid|].
    split; [|exact Hcreated].
    rewrite Hdomains. f_equal. apply Hdef. reflexivity.
Defined.

(** ** Further properties of the search handler *)

Lemma py_getitem_Raise_class v k e :
  py_getitem v k = Raise e → is_ValueError e = false.
Proof.
  destruct v as [| | | | | |d]; simpl; try by intros [= <-].
  destruct (d !! k); [done|]. by intros [= <-].
Qed.

(** A course that makes the loop fail makes it fail wherever it
    stands: the lists built so far and the courses after it play no
    role. *)
Lemma search_courses_loop_step_fails str neo4j_service completed_courses course e :
  search_courses_loop str neo4j_service completed_courses [course] [] [] = Raise e →
  ∀ rest eligible ineligible,
    search_courses_loop str neo4j_service completed_courses (course :: rest)
      eligible ineligible = Raise e.
Proof.
  intros H rest el inel. simpl in H |- *.
  bind_fails H. bind_fails H. bind_fails H.
  destruct (py_bool _).
  - bind_fails H. discriminate H.
  - repeat bind_fails H. discriminate H.
Qed.

(** A course that can be processed lets the loop go on with the rest. *)
Lemma search_courses_loop_step_goes_on str neo4j_service completed_courses course :
  processable str neo4j_service completed_courses course →
  ∀ eligible ineligible, ∃ eligible' ineligible',
    ∀ rest,
      search_courses_loop str neo4j_service completed_courses (course :: rest)
        eligible ineligible =
      search_courses_loop str neo4j_service completed_courses rest eligible' ineligible'.
Proof.
  intros (d & ps & id & met & -> & Hid & Hps & Hmet & Hmissing) el inel.
  destruct (py_bool met) eqn:Hb.
  - eexists _, _. intros rest. simpl. rewrite Hid. py_simpl. rewrite Hps. py_simpl.
    rewrite (py_getitem_Some _ _ _ Hmet). py_simpl. rewrite Hb. py_simpl. reflexivity.
  - destruct Hmissing as (items & names & Hitems & Hnames); [done|].
    eexists _, _. intros rest. simpl. rewrite Hid. py_simpl. rewrite Hps. py_simpl.
    rewrite (py_getitem_Some _ _ _ Hmet). py_simpl. rewrite Hb. py_simpl.
    rewrite (py_getitem_Some _ _ _ Hitems). py_simpl. simpl py_iter. py_simpl.
    rewrite (mapM_result_Ok _ items (VStr <$> names)) by by apply Forall2_fmap_r.
    py_simpl. unfold py_join. rewrite py_join_from_strings. py_simpl. reflexivity.
Qed.

(** The loop fails at the first course that fails. *)
Lemma search_courses_loop_first_failure str neo4j_service completed_courses
    before course after e :
  Forall (processable str neo4j_service completed_courses) before →
  search_courses_loop str neo4j_service completed_courses [course] [] [] = Raise e →
  ∀ eligible ineligible,
    search_courses_loop str neo4j_service completed_courses
      (before ++ course :: after) eligible ineligible = Raise e.
Proof.
  intros Hbefore Hfail.
  induction Hbefore as [|c before Hc _ IH]; intros el inel.
  - by apply search_courses_loop_step_fails.
  - destruct (search_courses_loop_step_goes_on _ _ _ _ Hc el inel) as (el' & inel' & Hstep).
    simpl app. rewrite Hstep. apply IH.
Qed.

(** The loop asks the graph collaborator about the ids of the courses
    it is given, and about nothing else. *)
Lemma search_courses_loop_ext_on str (neo neo' : Neo4jService.t) completed_courses courses :
  (∀ course id,
     course ∈ courses → py_getitem course "id" = Ok id →
     Neo4jService.check_prerequisites_completion neo' (str id) completed_courses =
     Neo4jService.check_prerequisites_completion neo (str id) completed_courses) →
  ∀ eligible ineligible,
    search_courses_loop str neo' completed_courses courses eligible ineligible =
    search_courses_loop str neo completed_courses courses eligible ineligible.
Proof.
  induction courses as [|course rest IH]; intros Hext el inel; [done|].
  assert (Hrest : ∀ el inel,
            search_courses_loop str neo' completed_courses rest el inel =
            search_courses_loop str neo completed_courses rest el inel).
  { apply IH. intros c id Hc. apply Hext. by right. }
  simpl. destruct (py_getitem course "id") as [id|] eqn:Hid; [|done]. py_simpl.
  rewrite (Hext course id) by (done || by left).
  bind_both. bind_both.
  destruct (py_bool _).
  - bind_both. apply Hrest.
  - repeat bind_both. apply Hrest.
Qed.

Section search_courses_further.
Context {datetime : Type}.
Variable str : value → string.
Variable search_service : CourseSearchService.t datetime.
Variable neo4j_service : Neo4jService.t.
Variables (q : string) (limit offset : Z) (major : option string).

Abbreviation handler' := (search_courses str search_service neo4j_service q limit offset major).
Abbreviation found' := (CourseSearchService.search_courses search_service q limit offset major).
Abbreviation done_by' u := (py_or (User.completed_courses u) (VList [])).

(** A response is the search result with at most six keys rewritten:
    every other key, [courses] and [total_count] among them, reads as
    the search collaborator set it.  When the check did not run,
    [user_completed_courses] is left alone as well. *)
Theorem search_courses_passes_keys_through check_prerequisites current_user body :
  handler' check_prerequisites current_user = Return body →
  ∃ search_results,
    found' = Ok search_results ∧
    (∀ k, k ∉ response_keys → py_getitem body k = py_getitem search_results k) ∧
    (check_prerequisites && Neo4jService.is_configured neo4j_service = false →
     py_getitem body "user_completed_courses" =
     py_getitem search_results "user_completed_courses").
Proof.
  intros H.
  destruct (check_prerequisites && Neo4jService.is_configured neo4j_service) eqn:Hpath.
  - apply andb_true_iff in Hpath as [-> Hconf].
    apply search_courses_checked_inv in H
      as (d & cv & courses & el & inel & Hfound & _ & _ & _ & ->); [|done].
    exists (VDict d). split; [done|]. split; [|done].
    intros k Hk. unfold response_keys in Hk. rewrite !not_elem_of_cons in Hk.
    rewrite !py_getitem_insert_ne by (intros <-; tauto). done.
  - apply search_courses_unchecked_inv in H as (d & cv & n & Hfound & _ & _ & ->); [|done].
    exists (VDict d). split; [done|]. split.
    + intros k Hk. unfold response_keys in Hk. rewrite !not_elem_of_cons in Hk.
      rewrite !py_getitem_insert_ne by (intros <-; tauto). done.
    + intros _. by rewrite !py_getitem_insert_ne by done.
Qed.

(** The [prerequisites_checked] flag of a response tells which path
    ran: it is true exactly when the check was asked for and the graph
    collaborator is configured. *)
Theorem search_courses_checked_flag check_prerequisites current_user body :
  handler' check_prerequisites current_user = Return body →
  py_getitem body "prerequisites_checked" =
  Ok (VBool (check_prerequisites && Neo4jService.is_configured neo4j_service)).
Proof.
  intros H.
  destruct (check_prerequisites && Neo4jService.is_configured neo4j_service) eqn:Hpath.
  - apply andb_true_iff in Hpath as [-> Hconf].
    apply search_courses_checked_inv in H
      as (d & cv & courses & el & inel & _ & _ & _ & _ & ->); [|done].
    getitem_tac.
  - apply search_courses_unchecked_inv in H as (d & cv & n & _ & _ & _ & ->); [|done].
    getitem_tac.
Qed.

(** When the check does not run, a search result with a list under
    [courses] and a [total_count] is always answered, whatever the
    entries of the list are, and the response is the result with five
    keys set. *)
Theorem search_courses_unchecked_answers check_prerequisites current_user d courses t :
  check_prerequisites && Neo4jService.is_configured neo4j_service = false →
  found' = Ok (VDict d) →
  d !! "courses" = Some (VList courses) →
  d !! "total_count" = Some t →
  handler' check_prerequisites current_user =
  Return (VDict
    (<["ineligible_count" := VInt 0]>
      (<["eligible_count" := VInt (Z.of_nat (length courses))]>
        (<["prerequisites_checked" := VBool false]>
          (<["ineligible_courses" := VList []]>
            (<["eligible_courses" := VList courses]> d)))))).
Proof.
  intros Hoff Hfound Hcourses Htotal.
  destruct (search_courses_unchecked_returns str search_service neo4j_service
              q limit offset major check_prerequisites current_user d courses t)
    as [body Hbody]; try done.
  rewrite Hbody.
  apply search_courses_unchecked_inv in Hbody
    as (d' & cv & n & Hfound' & Hcv & Hlen & ->); [|done].
  rewrite Hfound in Hfound'. injection Hfound' as <-.
  rewrite Hcourses in Hcv. injection Hcv as <-.
  simpl in Hlen. injection Hlen as <-. done.
Qed.

(** When the check runs, a search result with a [total_count] whose
    courses can all be processed is always answered; the response
    says that the check ran and echoes the caller's completed courses
    (the empty list when the caller has none). *)
Theorem search_courses_checked_answers current_user d courses t :
  Neo4jService.is_configured neo4j_service = true →
  found' = Ok (VDict d) →
  d !! "courses" = Some (VList courses) →
  d !! "total_count" = Some t →
  Forall (processable str neo4j_service (done_by' current_user)) courses →
  ∃ body,
    handler' true current_user = Return body ∧
    py_getitem body "prerequisites_checked" = Ok (VBool true) ∧
    py_getitem body "user_completed_courses" = Ok (done_by' current_user) ∧
    py_getitem body "total_count" = Ok t.
Proof.
  intros Hconf Hfound Hcourses Htotal Hall.
  destruct (search_courses_checked_returns str search_service neo4j_service
              q limit offset major current_user d courses t)
    as [body Hbody]; try done.
  exists body. split; [done|].
  apply search_courses_checked_inv in Hbody
    as (d' & cv & cs & el & inel & Hfound' & _ & _ & _ & ->); [|done].
  rewrite Hfound in Hfound'. injection Hfound' as <-.
  repeat split; getitem_tac.
Qed.

(** A search result from which [courses] cannot be read (the key is
    missing, or the result is not a dictionary) is a server error that
    carries the interpreter's message, on either path. *)
Theorem search_courses_unreadable_courses check_prerequisites current_user search_results e :
  found' = Ok search_results →
  py_getitem search_results "courses" = Raise e →
  handler' check_prerequisites current_user =
  HTTPException 500 ("Search failed: " +:+ str_exn e).
Proof.
  intros Hfound Hcv.
  pose proof (py_getitem_Raise_class _ _ _ Hcv) as Hclass.
  unfold search_courses, search_courses_body. rewrite Hfound. py_simpl.
  destruct (check_prerequisites && _); rewrite Hcv; by destruct e.
Qed.

(** A search result without [total_count] is a server error even
    though everything the response needs was computed: the handler
    reads the key for its log line. *)
Theorem search_courses_missing_total_count check_prerequisites current_user d courses :
  found' = Ok (VDict d) →
  d !! "courses" = Some (VList courses) →
  d !! "total_count" = None →
  (check_prerequisites && Neo4jService.is_configured neo4j_service = true →
   Forall (processable str neo4j_service (done_by' current_user)) courses) →
  handler' check_prerequisites current_user =
  HTTPException 500 "Search failed: 'total_count'".
Proof.
  intros Hfound Hcourses Htotal Hall.
  unfold search_courses, search_courses_body. rewrite Hfound. py_simpl.
  destruct (check_prerequisites && Neo4jService.is_configured neo4j_service).
  - destruct (search_courses_loop_returns _ _ _ _ (Hall eq_refl) [] [])
      as (el & inel & Hloop).
    rewrite (py_getitem_Some _ _ _ Hcourses). py_simpl. simpl py_iter. py_simpl.
    rewrite Hloop. py_simpl. cbv beta iota. py_simpl.
    replace (py_getitem (VDict _) "total_count")
      with (Raise (A:=value) (KeyError "'total_count'")); [done|].
    symmetry. rewrite py_getitem_dict.
    repeat (rewrite lookup_insert_ne by done). by rewrite Htotal.
  - rewrite (py_getitem_Some _ _ _ Hcourses). py_simpl.
    replace (py_getitem (VDict _) "courses") with (Ok (A:=value) (VList courses))
      by (symmetry; getitem_tac).
    py_simpl. simpl py_len. py_simpl.
    replace (py_getitem (VDict _) "total_count")
      with (Raise (A:=value) (KeyError "'total_count'")); [done|].
    symmetry. rewrite py_getitem_dict.
    repeat (rewrite lookup_insert_ne by done). by rewrite Htotal.
Qed.

(** A search that finds nothing is answered, with the check on, by two
    empty lists and two zero counts; the graph collaborator is not
    consulted, the response being the same for every configured
    one. *)
Theorem search_courses_nothing_found current_user d t :
  Neo4jService.is_configured neo4j_service = true →
  found' = Ok (VDict d) →
  d !! "courses" = Some (VList []) →
  d !! "total_count" = Some t →
  handler' true current_user =
  Return (VDict
    (<["ineligible_count" := VInt 0]>
      (<["eligible_count" := VInt 0]>
        (<["user_completed_courses" := done_by' current_user]>
          (<["prerequisites_checked" := VBool true]>
            (<["ineligible_courses" := VList []]>
              (<["eligible_courses" := VList []]> d))))))).
Proof.
  intros Hconf Hfound Hcourses Htotal.
  destruct (search_courses_checked_returns str search_service neo4j_service
              q limit offset major current_user d [] t)
    as [body Hbody]; try done.
  rewrite Hbody.
  apply search_courses_checked_inv in Hbody
    as (d' & cv & cs & el & inel & Hfound' & Hcv & Hiter & Hloop & ->); [|done].
  rewrite Hfound in Hfound'. injection Hfound' as <-.
  rewrite Hcourses in Hcv. injection Hcv as <-.
  injection Hiter as <-. injection Hloop as <- <-. done.
Qed.

(** With the check on, the request fails at the first course the loop
    cannot get through (no [id], a failing graph collaborator, an
    answer that lacks a key or names a prerequisite by something that
    is no string): the courses before it do not save the request, and
    the failure is reported by its class like any other. *)
Theorem search_courses_first_failure current_user d before course after e :
  Neo4jService.is_configured neo4j_service = true →
  found' = Ok (VDict d) →
  d !! "courses" = Some (VList (before ++ course :: after)) →
  Forall (processable str neo4j_service (done_by' current_user)) before →
  search_courses_loop str neo4j_service (done_by' current_user) [course] [] [] = Raise e →
  handler' true current_user =
  HTTPException (if is_ValueError e then 400 else 500)
    ((if is_ValueError e then "Invalid search parameters: " else "Search failed: ")
     +:+ str_exn e).
Proof.
  intros Hconf Hfound Hcourses Hbefore Hfail.
  unfold search_courses, search_courses_body. rewrite Hconf, Hfound. py_simpl.
  simpl andb. cbv iota.
  rewrite (py_getitem_Some _ _ _ Hcourses). py_simpl. simpl py_iter. py_simpl.
  rewrite (search_courses_loop_first_failure _ _ _ _ _ after _ Hbefore Hfail).
  by destruct e.
Qed.

(** The outcome of a request depends on the graph collaborator through
    its answers about the ids of the courses found, at the caller's
    completed courses, and through nothing else. *)
Theorem search_courses_graph_queries (neo' : Neo4jService.t)
    check_prerequisites current_user search_results cv courses :
  Neo4jService.is_configured neo' = Neo4jService.is_configured neo4j_service →
  found' = Ok search_results →
  py_getitem search_results "courses" = Ok cv →
  py_iter cv = Ok courses →
  (∀ course id,
     course ∈ courses → py_getitem course "id" = Ok id →
     Neo4jService.check_prerequisites_completion neo' (str id) (done_by' current_user) =
     Neo4jService.check_prerequisites_completion neo4j_service (str id)
       (done_by' current_user)) →
  search_courses str search_service neo' q limit offset major
    check_prerequisites current_user =
  handler' check_prerequisites current_user.
Proof.
  intros Hconf Hfound Hcv Hiter Hext.
  unfold search_courses, search_courses_body. rewrite Hconf, Hfound. py_simpl.
  destruct (check_prerequisites && _); [|done].
  rewrite Hcv. py_simpl. rewrite Hiter. py_simpl.
  by rewrite (search_courses_loop_ext_on str neo4j_service neo' _ courses Hext).
Qed.

End search_courses_further.

(** ** Further properties of the two course listings *)

Section lookup_further.
Context {datetime : Type}.
Variable isoformat : datetime → string.
Variable str : value → string.
Variable search_service : CourseSearchService.t datetime.

(** The lookup by id on a collaborator that finds nothing or fails: no
    course is a 404 that quotes the id asked for; an exception of the
    collaborator ([HTTPException] apart, which the model leaves out)
    is a 500 that carries its message, and this holds for a
    [ValueError] too, which [search_courses] would answer with a
    400. *)
Theorem get_course_by_id_errors course_id :
  (CourseSearchService.get_course_by_id search_service course_id = Ok None →
   get_course_by_id isoformat str search_service course_id =
   HTTPException 404 ("Course with ID '" +:+ course_id +:+ "' not found")) ∧
  (∀ e, CourseSearchService.get_course_by_id search_service course_id = Raise e →
   get_course_by_id isoformat str search_service course_id =
   HTTPException 500 ("Failed to retrieve course: " +:+ str_exn e)).
Proof.
  unfold get_course_by_id. split.
  - by intros ->.
  - by intros e ->.
Qed.

End lookup_further.

Section listing_further.
Context {datetime : Type}.
Variable isoformat : datetime → string.
Variable str : value → string.
Variable upper : string → string.

(** The listing by major on a collaborator that fails: for an allowed
    major, an exception of the collaborator ([HTTPException] apart,
    which the model leaves out) is a 500 that carries its message, a
    [ValueError] included; for a major that is not allowed the
    collaborator is not consulted, every search service giving the
    same answer. *)
Theorem get_courses_by_major_errors (search_service : CourseSearchService.t datetime)
    major limit :
  (∀ e, upper major ∈ valid_majors →
     CourseSearchService.get_courses_by_major search_service (upper major) limit
       = Raise e →
     get_courses_by_major isoformat str upper search_service major limit =
     HTTPException 500 ("Failed to retrieve courses: " +:+ str_exn e)) ∧
  (∀ other : CourseSearchService.t datetime, upper major ∉ valid_majors →
     get_courses_by_major isoformat str upper other major limit =
     get_courses_by_major isoformat str upper search_service major limit).
Proof.
  unfold get_courses_by_major. split.
  - intros e Hin He. rewrite bool_decide_eq_false_2 by (by intros Hbad).
    by rewrite He.
  - intros other Hbad. by rewrite bool_decide_eq_true_2 by done.
Qed.

End listing_further.

(** ** The further properties on small catalogues *)

Lemma csye6200_processable :
  processable Demo.str (Demo.neo4j_service true) (VList []) (VDict Demo.csye6200).
Proof.
  exists Demo.csye6200,
    {[ "prerequisites_met" := VBool true; "missing_prerequisites" := VList [] ]},
    (VStr "CSYE6200"), (VBool true).
  repeat split; try (vm_compute; reflexivity). discriminate.
Qed.

Lemma csye6225_processable :
  processable Demo.str (Demo.neo4j_service true) (VList []) (VDict Demo.csye6225).
Proof.
  exists Demo.csye6225,
    {[ "prerequisites_met" := VBool false;
       "missing_prerequisites" := VList [VDict {[ "name" := VStr "CSYE6200" ]}] ]},
    (VStr "CSYE6225"), (VBool false).
  repeat split; try (vm_compute; reflexivity).
  intros _. exists [VDict {[ "name" := VStr "CSYE6200" ]}], ["CSYE6200"].
  split; [vm_compute; reflexivity|]. repeat constructor.
Qed.

Lemma search_courses_passes_keys_through_witness :
  ∃ search_results,
    CourseSearchService.search_courses Demo.search_service "cloud" 5 0 None
      = Ok search_results ∧
    (∀ k, k ∉ response_keys →
       py_getitem Demo.checked_body k = py_getitem search_results k) ∧
    (true && Neo4jService.is_configured (Demo.neo4j_service true) = false →
     py_getitem Demo.checked_body "user_completed_courses" =
     py_getitem search_results "user_completed_courses").
Proof.
  apply (search_courses_passes_keys_through Demo.str Demo.search_service
           (Demo.neo4j_service true) "cloud" 5 0 None true (Demo.student VNone)
           Demo.checked_body).
  vm_compute. reflexivity.
Defined.

Lemma search_courses_checked_flag_witness :
  py_getitem Demo.unchecked_body "prerequisites_checked" =
  Ok (VBool (false && Neo4jService.is_configured (Demo.neo4j_service true))).
Proof.
  apply (search_courses_checked_flag Demo.str Demo.search_service
           (Demo.neo4j_service true) "cloud" 5 0 None false (Demo.student VNone)
           Demo.unchecked_body).
  vm_compute. reflexivity.
Defined.

Lemma search_courses_unchecked_answers_witness :
  search_courses Demo.str Demo.search_service (Demo.neo4j_service false)
    "cloud" 5 0 None true (Demo.student VNone) =
  Return (VDict
    (<["ineligible_count" := VInt 0]>
      (<["eligible_count" := VInt 2]>
        (<["prerequisites_checked" := VBool false]>
          (<["ineligible_courses" := VList []]>
            (<["eligible_courses" := VList [VDict Demo.csye6200; VDict Demo.csye6225]]>
               Demo.search_results)))))).
Proof.
  apply (search_courses_unchecked_answers Demo.str Demo.search_service
           (Demo.neo4j_service false) "cloud" 5 0 None true (Demo.student VNone)
           Demo.search_results [VDict Demo.csye6200; VDict Demo.csye6225] (VInt 2)).
  - reflexivity.
  - reflexivity.
  - vm_compute. reflexivity.
  - vm_compute. reflexivity.
Defined.

Lemma search_courses_checked_answers_witness :
  ∃ body,
    search_courses Demo.str Demo.search_service (Demo.neo4j_service true)
      "cloud" 5 0 None true (Demo.student VNone) = Return body ∧
    py_getitem body "prerequisites_checked" = Ok (VBool true) ∧
    py_getitem body "user_completed_courses" = Ok (VList []) ∧
    py_getitem body "total_count" = Ok (VInt 2).
Proof.
  apply (search_courses_checked_answers Demo.str Demo.search_service
           (Demo.neo4j_service true) "cloud" 5 0 None (Demo.student VNone)
           Demo.search_results [VDict Demo.csye6200; VDict Demo.csye6225] (VInt 2)).
  - reflexivity.
  - reflexivity.
  - vm_compute. reflexivity.
  - vm_compute. reflexivity.
  - repeat constructor; [apply csye6200_processable | apply csye6225_processable].
Defined.

Lemma search_courses_unreadable_courses_witness :
  search_courses Demo.str (Cases.returning VNone) (Demo.neo4j_service true)
    "cloud" 5 0 None true (Demo.student VNone) =
  HTTPException 500 "Search failed: 'NoneType' object is not subscriptable".
Proof.
  apply (search_courses_unreadable_courses Demo.str (Cases.returning VNone)
           (Demo.neo4j_service true) "cloud" 5 0 None true (Demo.student VNone) VNone
           (TypeError "'NoneType' object is not subscriptable")).
  - reflexivity.
  - reflexivity.
Defined.

Lemma search_courses_missing_total_count_witness :
  search_courses Demo.str (Cases.returning (VDict Cases.no_total_count))
    (Demo.neo4j_service true) "cloud" 5 0 None true (Demo.student VNone) =
  HTTPException 500 "Search failed: 'total_count'".
Proof.
  apply (search_courses_missing_total_count Demo.str
           (Cases.returning (VDict Cases.no_total_count)) (Demo.neo4j_service true)
           "cloud" 5 0 None true (Demo.student VNone)
           Cases.no_total_count [VDict Demo.csye6200]).
  - reflexivity.
  - vm_compute. reflexivity.
  - vm_compute. reflexivity.
  - intros _. repeat constructor. apply csye6200_processable.
Defined.

Lemma search_courses_nothing_found_witness :
  search_courses Demo.str (Cases.returning (VDict Cases.nothing_found))
    (Demo.neo4j_service true) "quantum" 5 0 None true (Demo.student VNone) =
  Return (VDict
    (<["ineligible_count" := VInt 0]>
      (<["eligible_count" := VInt 0]>
        (<["user_completed_courses" := VList []]>
          (<["prerequisites_checked" := VBool true]>
            (<["ineligible_courses" := VList []]>
              (<["eligible_courses" := VList []]> Cases.nothing_found))))))).
Proof.
  apply (search_courses_nothing_found Demo.str
           (Cases.returning (VDict Cases.nothing_found)) (Demo.neo4j_service true)
           "quantum" 5 0 None (Demo.student VNone) Cases.nothing_found (VInt 0)).
  - reflexivity.
  - reflexivity.
  - vm_compute. reflexivity.
  - vm_compute. reflexivity.
Defined.

Lemma search_courses_first_failure_witness :
  search_courses Demo.str (Cases.returning (VDict Cases.course_without_id))
    (Demo.neo4j_service true) "cloud" 5 0 None true (Demo.student VNone) =
  HTTPException 500 "Search failed: 'id'".
Proof.
  apply (search_courses_first_failure Demo.str
           (Cases.returning (VDict Cases.course_without_id)) (Demo.neo4j_service true)
           "cloud" 5 0 None (Demo.student VNone) Cases.course_without_id
           [VDict Demo.csye6200] (VDict {[ "course_name" := VStr "Untitled" ]})
           [VDict Demo.csye6225] (KeyError "'id'")).
  - reflexivity.
  - reflexivity.
  - vm_compute. reflexivity.
  - repeat constructor. apply csye6200_processable.
  - vm_compute. reflexivity.
Defined.

Lemma search_courses_graph_queries_witness :
  search_courses Demo.str (Cases.returning (VDict Cases.one_course)) Cases.partial_graph
    "cloud" 5 0 None true (Demo.student VNone) =
  search_courses Demo.str (Cases.returning (VDict Cases.one_course)) (Demo.neo4j_service true)
    "cloud" 5 0 None true (Demo.student VNone).
Proof.
  apply (search_courses_graph_queries Demo.str
           (Cases.returning (VDict Cases.one_course)) (Demo.neo4j_service true)
           "cloud" 5 0 None Cases.partial_graph true (Demo.student VNone)
           (VDict Cases.one_course) (VList [VDict Demo.csye6200]) [VDict Demo.csye6200]).
  - reflexivity.
  - reflexivity.
  - vm_compute. reflexivity.
  - reflexivity.
  - intros course id Hin Hid. apply list_elem_of_singleton in Hin. subst course.
    vm_compute in Hid. injection Hid as <-. vm_compute. reflexivity.
Defined.

Lemma get_course_by_id_errors_witness :
  get_course_by_id Demo.isoformat Demo.str Demo.search_service "CSYE9999"
  = HTTPException 404 "Course with ID 'CSYE9999' not found" ∧
  get_course_by_id Demo.isoformat Demo.str (Cases.failing (ValueError "bad id")) "CSYE6225"
  = HTTPException 500 "Failed to retrieve course: bad id".
Proof.
  split.
  - destruct (get_course_by_id_errors Demo.isoformat Demo.str Demo.search_service
                "CSYE9999") as [Hnone _].
    apply Hnone. reflexivity.
  - destruct (get_course_by_id_errors Demo.isoformat Demo.str
                (Cases.failing (ValueError "bad id")) "CSYE6225") as [_ Hraise].
    apply (Hraise (ValueError "bad id")). reflexivity.
Defined.

Lemma get_courses_by_major_errors_witness :
  get_courses_by_major Demo.isoformat Demo.str ascii_upper
    (Cases.failing (ValueError "bad major")) "info" 50
  = HTTPException 500 "Failed to retrieve courses: bad major" ∧
  get_courses_by_major Demo.isoformat Demo.str ascii_upper Demo.search_service "xyz" 50
  = get_courses_by_major Demo.isoformat Demo.str ascii_upper
      (Cases.failing (ValueError "bad major")) "xyz" 50.
Proof.
  split.
  - destruct (get_courses_by_major_errors Demo.isoformat Demo.str ascii_upper
                (Cases.failing (ValueError "bad major")) "info" 50) as [Hraise _].
    apply (Hraise (ValueError "bad major")); [|reflexivity].
    apply (bool_decide_unpack _). vm_compute. exact I.
  - destruct (get_courses_by_major_errors Demo.isoformat Demo.str ascii_upper
                (Cases.failing (ValueError "bad major")) "xyz" 50) as [_ Hskip].
    apply Hskip. apply (bool_decide_unpack _). vm_compute. exact I.
Defined.

(** ** Worked requests *)

(** CSYE6225 requires CSYE6200: a caller who completed nothing finds it
    among the ineligible courses, with the message that names what is
    missing. *)
Example csye6225_ineligible :
  Demo.fields_under "ineligible_courses" "id" Demo.checked_body
  = Ok [VStr "CSYE6225"] ∧
  Demo.fields_under "ineligible_courses" "prerequisite_message" Demo.checked_body
  = Ok [VStr "Complete one of: CSYE6200"].
Proof. split; vm_compute; reflexivity. Qed.

(** A caller who completed CSYE6200 finds both courses eligible. *)
Example csye6200_completed :
  Demo.fields_under "eligible_courses" "id"
    (Demo.body_of (search_courses Demo.str Demo.search_service (Demo.neo4j_service true)
                     "cloud" 5 0 None true (Demo.student (VList [VStr "CSYE6200"]))))
  = Ok [VStr "CSYE6200"; VStr "CSYE6225"].
Proof. vm_compute. reflexivity. Qed.

(** The [except] clauses look at the class of the exception only: a
    [ValueError] met after the search, here in the graph collaborator,
    is reported as invalid search parameters too. *)
Example value_error_after_search :
  search_courses Demo.str Demo.search_service
    (Neo4jService.mk true (λ _ _, Raise (ValueError "no such node")))
    "cloud" 5 0 None true (Demo.student VNone)
  = HTTPException 400 "Invalid search parameters: no such node".
Proof. vm_compute. reflexivity. Qed.

(** A search result without its list of courses is a server error. *)
Example courses_key_missing :
  search_courses Demo.str
    (CourseSearchService.mk string (λ _ _ _ _, Ok (VDict ∅)) (λ _, Ok None) (λ _ _, Ok []))
    (Demo.neo4j_service true) "cloud" 5 0 None true (Demo.student VNone)
  = HTTPException 500 "Search failed: 'courses'".
Proof. vm_compute. reflexivity. Qed.

Example ascii_upper_mixed_case : ascii_upper "cSye" = "CSYE".
Proof. reflexivity. Qed.

(** A spelling that [str.upper] brings to an allowed major from outside
    ASCII is listed like the major itself. *)
Example long_s_major :
  is_ascii "cſye" = false ∧
  get_courses_by_major Demo.isoformat Demo.str Cases.upper_beyond_ascii
    Demo.search_service "cſye" 50 =
  get_courses_by_major Demo.isoformat Demo.str Cases.upper_beyond_ascii
    Demo.search_service "CSYE" 50 ∧
  get_courses_by_major Demo.isoformat Demo.str Cases.upper_beyond_ascii
    Demo.search_service "cſye" 50 = Return Demo.csye_body.
Proof. repeat split; vm_compute; reflexivity. Qed.

Example join_non_string :
  py_join ", " [VStr "a"; VInt 3]
  = Raise (TypeError "sequence item 1: expected str instance, int found").
Proof. vm_compute. reflexivity. Qed.
